(** * Sinara Kasli target: clock/reset generator, SoC assembly and build script

    A shallow embedding of [litex_boards/targets/sinara_kasli.py]:
    the [_CRG] clock and reset generator, the [BaseSoC] constructor and the
    [main] entry point.

    Python objects with instance attributes are records or attribute maps,
    [**kwargs] is a finite map, exceptions are values of [exn], and code that
    mutates an object or raises runs in a state-and-exception monad that
    keeps the state reached when the exception was raised.  Python [float]s
    are binary64 numbers, as Rocq's primitive floats are.

    The LiteX, Migen, LiteDRAM and LiteEth classes the file instantiates are
    outside the repository; a call into them is recorded with its arguments
    (the object built, the attribute set, the method invoked).  In [BaseSoC]
    and [main] every such call returns.  [BaseSoC_lib] and [main_lib] run
    the same statements with libraries whose calls may raise: each call
    after the [_CRG] is stored either returns or raises what the [Library]
    says, and with a library that always returns they are [BaseSoC] and
    [main]. *)

From Stdlib Require Import ZArith List Bool String PrimFloat.
From stdpp Require Import base option list gmap strings.

Local Open Scope Z_scope.
Local Open Scope string_scope.

(** ** Exceptions and the state-and-exception monad *)

Inductive exn : Type :=
| AttributeError (cls attr : string)
| TypeError (what : string)
| IndexError (what : string)
| AssertionError
| NotImplementedError (msg : string)
| SystemExit (code : Z).

Definition M (S A : Type) : Type := S -> S * (exn + A).

Definition ret {S A} (a : A) : M S A := fun s => (s, inr a).

Definition bind {S A B} (m : M S A) (k : A -> M S B) : M S B :=
  fun s => match m s with
           | (s', inr a) => k a s'
           | (s', inl e) => (s', inl e)
           end.

Definition raise {S A} (e : exn) : M S A := fun s => (s, inl e).
Definition gets {S A} (f : S -> A) : M S A := fun s => (s, inr (f s)).
Definition modify {S} (f : S -> S) : M S unit := fun s => (f s, inr tt).

(** [if c: body] with no [else]. *)
Definition when {S} (c : bool) (body : M S unit) : M S unit :=
  if c then body else ret tt.

Declare Scope py_scope.
Delimit Scope py_scope with py.
Notation "x <- m ;; k" := (bind m (fun x => k))
  (at level 100, m at next level, right associativity) : py_scope.
Notation "m ;;; k" := (bind m (fun _ => k))
  (at level 100, right associativity) : py_scope.
Local Open Scope py_scope.

(** ** Hardware description objects *)

(** A resource handed out by [platform.request(name, number)]. *)
Record resource : Type := { res_name : string; res_number : option Z }.

Record ClockDomain : Type := { cd_name : string }.

Inductive signal : Type :=
| pad_p (r : resource)          (* [clk125.p] *)
| pad_n (r : resource)          (* [clk125.n] *)
| clk125_buf_sig                (* [self.clk125_buf = Signal()] *)
| clk125_div2_sig               (* [self.clk125_div2 = Signal()] *)
| cd_clk (cd : ClockDomain)     (* [cd.clk] *)
| const (v : Z).

(** [Instance(of, **ports)]. *)
Record Instance : Type := { inst_of : string; inst_ports : list (string * signal) }.

Record clkout : Type := { co_cd : ClockDomain; co_freq : float; co_phase : Z }.

(** The MMCM as this file drives it: the reference registered with
    [register_clkin] and the outputs requested with [create_clkout], oldest
    first. *)
Record S7MMCM : Type := {
  speedgrade : Z;
  clkin      : option (signal * float);
  clkouts    : list clkout
}.

Definition S7MMCM_new (speedgrade : Z) : S7MMCM :=
  {| speedgrade := speedgrade; clkin := None; clkouts := [] |}.

Definition register_clkin (clk : signal) (freq : float) (pll : S7MMCM) : S7MMCM :=
  {| speedgrade := speedgrade pll; clkin := Some (clk, freq); clkouts := clkouts pll |}.

(** [create_clkout(cd, freq, phase=0)]: the phase defaults to 0. *)
Definition default_phase : Z := 0.

Definition create_clkout (cd : ClockDomain) (freq : float) (phase : Z) (pll : S7MMCM) : S7MMCM :=
  {| speedgrade := speedgrade pll; clkin := clkin pll;
     clkouts := clkouts pll ++ [{| co_cd := cd; co_freq := freq; co_phase := phase |}] |}.

Record S7IDELAYCTRL : Type := { idelay_cd : ClockDomain }.

Record QPLLSettings : Type := {
  refclksel  : Z;
  fbdiv      : Z;
  fbdiv_45   : Z;
  refclk_div : Z
}.

(** [QPLL(gtrefclk0, qpllsettings0)]: the QPLL has the two channels of the
    transceiver's common block, 0 and 1. *)
Record QPLL : Type := {
  gtrefclk0     : signal;
  qpllsettings0 : QPLLSettings;
  channels      : list Z
}.

Definition QPLL_new (refclk : signal) (settings : QPLLSettings) : QPLL :=
  {| gtrefclk0 := refclk; qpllsettings0 := settings; channels := [0; 1] |}.

(** The [sinara_kasli.Platform] object as this file uses it: the resources
    this file requests from it and the period constraints this file
    registers on it, oldest first.  What the libraries request on their own
    is not recorded. *)
Record Platform : Type := {
  platform_hw_rev    : string;
  platform_toolchain : string;
  requested          : list resource;
  period_constraints : list (resource * float)
}.

Definition Platform_new (hw_rev toolchain : string) : Platform :=
  {| platform_hw_rev := hw_rev; platform_toolchain := toolchain;
     requested := []; period_constraints := [] |}.

Definition Platform_request (r : resource) (p : Platform) : Platform :=
  {| platform_hw_rev := platform_hw_rev p; platform_toolchain := platform_toolchain p;
     requested := requested p ++ [r]; period_constraints := period_constraints p |}.

Definition Platform_add_period_constraint (r : resource) (period : float) (p : Platform) : Platform :=
  {| platform_hw_rev := platform_hw_rev p; platform_toolchain := platform_toolchain p;
     requested := requested p; period_constraints := period_constraints p ++ [(r, period)] |}.

(** ** The clock and reset generator *)

(** The attributes of a [_CRG] instance.  The ones assigned under
    [if with_dram:] or [if with_qpll:] exist only when the flag was true:
    reading a missing one is an [AttributeError]. *)
Record CRG : Type := {
  clock_domains : list ClockDomain;      (* registered domains, oldest first *)
  cd_sys        : ClockDomain;
  cd_sys4x      : option ClockDomain;
  cd_sys4x_dqs  : option ClockDomain;
  cd_idelay     : option ClockDomain;
  clk125_buf    : signal;
  clk125_div2   : signal;
  specials      : list Instance;
  pll           : S7MMCM;
  idelayctrl    : option S7IDELAYCTRL;
  qpll          : option QPLL
}.

(** ** The SoC under construction *)

(** [DNA()], and the arguments of [add_timing_constraints] once it has been
    called on it. *)
Record DNA : Type := { dna_timing : option (float * signal) }.

Record A7DDRPHY : Type := {
  ddr_pads         : resource;
  ddr_memtype      : string;
  ddr_nphases      : Z;
  ddr_sys_clk_freq : float
}.

(** [self.clk_freq]: the clock frequency as a [SoCCore] that was initialised
    with [sys_clk_freq] keeps it. *)
Inductive clk_freq : Type := clk_freq_of (sys_clk_freq : float).

Record A7_1000BASEX : Type := {
  qpll_channel     : Z;
  data_pads        : resource;
  eth_sys_clk_freq : clk_freq;
  with_csr         : bool
}.

(** The values the instance attributes of the [BaseSoC] object hold. *)
Inductive attr : Type :=
| ACRG (c : CRG)
| APlatform                      (* a reference to the platform object *)
| AClkFreq (f : clk_freq)
| AInt (z : Z)
| AXADC
| ADNA (d : DNA)
| ADDRPHY (p : A7DDRPHY)
| AEthPHY (p : A7_1000BASEX).

(** The SoC integration methods the constructor invokes on [self]. *)
Inductive soc_call : Type :=
| add_sdram (name : string) (phy : A7DDRPHY) (module : string * float * string) (l2_cache_size : Z)
| add_ethernet (phy : A7_1000BASEX) (dynamic_ip : bool)
| add_etherbone (phy : A7_1000BASEX) (ip_address : string) (arp_entries : Z)
| add_spi_flash (mode : string) (module : string * string) (rate : string) (with_master : bool).

(** The state a [BaseSoC] construction works on: the one platform object
    (shared by [_CRG], [SoCCore] and the constructor body), the instance
    attributes of [self], and the integration methods invoked, oldest
    first. *)
Record World : Type := {
  platform  : Platform;
  attrs     : gmap string attr;
  soc_calls : list soc_call
}.

Definition new_world (p : Platform) : World :=
  {| platform := p; attrs := ∅; soc_calls := [] |}.

Definition on_platform (f : Platform -> Platform) : M World unit :=
  modify (fun w => {| platform := f (platform w); attrs := attrs w; soc_calls := soc_calls w |}).

(** [platform.request(name)] and [platform.request(name, number)]. *)
Definition request (name : string) (number : option Z) : M World resource :=
  let r := {| res_name := name; res_number := number |} in
  on_platform (Platform_request r) ;;; ret r.

Definition add_period_constraint (r : resource) (period : float) : M World unit :=
  on_platform (Platform_add_period_constraint r period).

(** [self.name = v]. *)
Definition setattr (name : string) (v : attr) : M World unit :=
  modify (fun w => {| platform := platform w; attrs := <[name := v]> (attrs w);
                      soc_calls := soc_calls w |}).

(** [self.name]: an [AttributeError] when the attribute was never set. *)
Definition getattr (name : string) : M World attr :=
  fun w => match attrs w !! name with
           | Some v => (w, inr v)
           | None => (w, inl (AttributeError "BaseSoC" name))
           end.

(** [self.method(...)] for the integration methods. *)
Definition call (c : soc_call) : M World unit :=
  modify (fun w => {| platform := platform w; attrs := attrs w;
                      soc_calls := soc_calls w ++ [c] |}).

(** [o.name] on an attribute that is assigned only on some paths. *)
Definition attr_of {S A} (cls name : string) (o : option A) : M S A :=
  match o with
  | Some v => ret v
  | None => raise (AttributeError cls name)
  end.

(** [l[i]]. *)
Definition index {S A} (what : string) (l : list A) (i : nat) : M S A :=
  match l !! i with
  | Some v => ret v
  | None => raise (IndexError what)
  end.

(** ** [_CRG.__init__] *)

Definition _CRG (sys_clk_freq : float) (with_dram with_qpll : bool) : M World CRG :=
  let sys       := {| cd_name := "sys" |} in
  let sys4x     := {| cd_name := "sys4x" |} in
  let sys4x_dqs := {| cd_name := "sys4x_dqs" |} in
  let idelay    := {| cd_name := "idelay" |} in
  let dram {A} (v : A) : option A := if with_dram then Some v else None in
  (* Clk input buffer *)
  clk125 <- request "clk125_gtp" None ;;
  add_period_constraint clk125 8%float ;;;
  let ibufds :=
    {| inst_of := "IBUFDS_GTE2";
       inst_ports := [("i_CEB", const 0);
                      ("i_I", pad_p clk125); ("i_IB", pad_n clk125);
                      ("o_O", clk125_buf_sig);
                      ("o_ODIV2", clk125_div2_sig)] |} in
  (* PLL *)
  let pll := S7MMCM_new (-3) in
  let pll := register_clkin clk125_div2_sig (125e6 / 2)%float pll in
  let pll := create_clkout sys sys_clk_freq default_phase pll in
  let pll :=
    if with_dram then
      let pll := create_clkout sys4x (4 * sys_clk_freq)%float default_phase pll in
      let pll := create_clkout sys4x_dqs (4 * sys_clk_freq)%float 90 pll in
      create_clkout idelay 200e6%float default_phase pll
    else pll in
  (* SGMII QPLL *)
  let qpll :=
    if with_qpll then
      let qpll_settings :=
        {| refclksel := 1; fbdiv := 4; fbdiv_45 := 5; refclk_div := 1 |} in
      Some (QPLL_new clk125_buf_sig qpll_settings)
    else None in
  ret {| clock_domains := sys :: (if with_dram then [sys4x; sys4x_dqs; idelay] else []);
         cd_sys        := sys;
         cd_sys4x      := dram sys4x;
         cd_sys4x_dqs  := dram sys4x_dqs;
         cd_idelay     := dram idelay;
         clk125_buf    := clk125_buf_sig;
         clk125_div2   := clk125_div2_sig;
         specials      := [ibufds];
         pll           := pll;
         idelayctrl    := dram {| idelay_cd := idelay |};
         qpll          := qpll |}.

(** ** [BaseSoC.__init__] *)

(** The arguments of [BaseSoC(...)]; [kwargs] holds the integer-valued
    keyword arguments passed on to [SoCCore]. *)
Record Config : Type := {
  hw_rev         : string;
  toolchain      : string;
  sys_clk_freq   : float;
  with_xadc      : bool;
  with_dna       : bool;
  with_ethernet  : bool;
  with_etherbone : bool;
  eth_ip         : string;
  eth_dynamic_ip : bool;
  with_spi_flash : bool;
  with_qpll      : bool;
  kwargs         : gmap string Z
}.

(** The defaults of the signature, for a given [hw_rev]. *)
Definition default_config (hw_rev : string) : Config :=
  {| hw_rev := hw_rev; toolchain := "vivado"; sys_clk_freq := 125e6%float;
     with_xadc := false; with_dna := false;
     with_ethernet := false; with_etherbone := false;
     eth_ip := "192.168.1.70"; eth_dynamic_ip := false;
     with_spi_flash := false; with_qpll := true; kwargs := ∅ |}.

(** [d.get(key, default)]. *)
Definition dict_get (d : gmap string Z) (key : string) (dflt : Z) : Z :=
  default dflt (d !! key).

(** [with_dram = (kwargs.get("integrated_main_ram_size", 0) == 0)]. *)
Definition with_dram (c : Config) : bool :=
  (dict_get (kwargs c) "integrated_main_ram_size" 0 =? 0)%Z.

(** [with_qpll = with_qpll or with_ethernet or with_etherbone]. *)
Definition effective_with_qpll (c : Config) : bool :=
  with_qpll c || with_ethernet c || with_etherbone c.

(** [SoCCore.__init__(self, platform, sys_clk_freq, **kwargs)], as far as the
    constructor reads back from it: it keeps the platform, the clock
    frequency and the size of the integrated main RAM (0 when not given). *)
Definition SoCCore_init (sys_clk_freq : float) (kwargs : gmap string Z) : M World unit :=
  setattr "platform" APlatform ;;;
  setattr "clk_freq" (AClkFreq (clk_freq_of sys_clk_freq)) ;;;
  setattr "integrated_main_ram_size" (AInt (dict_get kwargs "integrated_main_ram_size" 0)).

Definition as_crg (v : attr) : M World CRG :=
  match v with ACRG c => ret c | _ => raise (TypeError "_CRG") end.
Definition as_clk_freq (v : attr) : M World clk_freq :=
  match v with AClkFreq f => ret f | _ => raise (TypeError "clk_freq") end.
Definition as_int (v : attr) : M World Z :=
  match v with AInt z => ret z | _ => raise (TypeError "int") end.
Definition as_ddrphy (v : attr) : M World A7DDRPHY :=
  match v with ADDRPHY p => ret p | _ => raise (TypeError "A7DDRPHY") end.
Definition as_ethphy (v : attr) : M World A7_1000BASEX :=
  match v with AEthPHY p => ret p | _ => raise (TypeError "A7_1000BASEX") end.

(** The body of the constructor after the platform object is created. *)
Definition BaseSoC_body (c : Config) : M World unit :=
  (* CRG *)
  let with_dram := with_dram c in
  let with_qpll := effective_with_qpll c in
  crg <- _CRG (sys_clk_freq c) with_dram with_qpll ;;
  setattr "crg" (ACRG crg) ;;;
  (* SoCCore *)
  SoCCore_init (sys_clk_freq c) (kwargs c) ;;;
  (* XADC *)
  when (with_xadc c) (setattr "xadc" AXADC) ;;;
  (* DNA *)
  when (with_dna c)
    (setattr "dna" (ADNA {| dna_timing := None |}) ;;;
     v <- getattr "crg" ;; crg <- as_crg v ;;
     setattr "dna" (ADNA {| dna_timing := Some (sys_clk_freq c, cd_clk (cd_sys crg)) |})) ;;;
  (* DDR3 SDRAM *)
  v <- getattr "integrated_main_ram_size" ;; size <- as_int v ;;
  when (size =? 0)%Z
    (pads <- request "ddram" None ;;
     setattr "ddrphy" (ADDRPHY {| ddr_pads := pads; ddr_memtype := "DDR3";
                                  ddr_nphases := 4; ddr_sys_clk_freq := sys_clk_freq c |}) ;;;
     v <- getattr "ddrphy" ;; phy <- as_ddrphy v ;;
     call (add_sdram "sdram" phy ("MT41K256M16", sys_clk_freq c, "1:4")
                     (dict_get (kwargs c) "l2_size" 8192))) ;;;
  (* Ethernet / Etherbone *)
  v <- getattr "crg" ;; crg <- as_crg v ;;
  q <- attr_of "_CRG" "qpll" (qpll crg) ;;
  channel <- index "channels" (channels q) 0 ;;
  getattr "platform" ;;;
  pads <- request "sfp" (Some 0) ;;
  v <- getattr "clk_freq" ;; clk_freq <- as_clk_freq v ;;
  setattr "ethphy" (AEthPHY {| qpll_channel := channel; data_pads := pads;
                               eth_sys_clk_freq := clk_freq; with_csr := false |}) ;;;
  when (with_ethernet c)
    (v <- getattr "ethphy" ;; phy <- as_ethphy v ;;
     call (add_ethernet phy (eth_dynamic_ip c))) ;;;
  when (with_etherbone c)
    (v <- getattr "ethphy" ;; phy <- as_ethphy v ;;
     call (add_etherbone phy (eth_ip c) 4)) ;;;
  (* SPI Flash *)
  when (with_spi_flash c)
    (raise (A := unit) (NotImplementedError "SPI Flash not supported on Sinara Kasli.") ;;;
     call (add_spi_flash "4x" ("S25FL128L", "READ_1_1_4") "1:2" true)).

(** [BaseSoC(...)]: the state the construction reached, and [inr tt] when it
    returned or [inl e] when it raised [e]. *)
Definition BaseSoC (c : Config) : World * (exn + unit) :=
  BaseSoC_body c (new_world (Platform_new (hw_rev c) (toolchain c))).

(** The [_CRG] a construction has stored in [self.crg], if it got that far. *)
Definition crg_of (w : World) : option CRG :=
  match attrs w !! "crg" with
  | Some (ACRG c) => Some c
  | _ => None
  end.

(** ** [main] *)

(** The command line as [parser.parse_args()] reads it: one field per option
    the target declares, the framework's [--toolchain], [--build] and
    [--load], and [parser.soc_argdict]. *)
Module Args.
Record t : Type := {
  flash          : bool;
  hw_rev         : string;
  sys_clk_freq   : float;
  with_xadc      : bool;
  with_dna       : bool;
  with_ethernet  : bool;
  with_etherbone : bool;
  eth_ip         : string;
  eth_dynamic_ip : bool;
  with_spi_flash : bool;
  toolchain      : string;
  build          : bool;
  load           : bool;
  soc_argdict    : gmap string Z
}.

(** The defaults the parser declares: no option given. *)
Definition defaults : t :=
  {| flash := false; hw_rev := "v2.0"; sys_clk_freq := 125e6%float;
     with_xadc := false; with_dna := false;
     with_ethernet := false; with_etherbone := false;
     eth_ip := "192.168.1.50"; eth_dynamic_ip := false;
     with_spi_flash := false; toolchain := "vivado";
     build := false; load := false; soc_argdict := ∅ |}.
End Args.

(** What [main] does with the builder and the programmer. *)
Inductive tool_call : Type :=
| Builder_new
| builder_build
| create_programmer
| load_bitstream (mode : string)
| prog_flash (address : Z) (mode : string).

(** The state of a run of [main]: the [BaseSoC] object as far as its
    construction got ([None] before the constructor is entered) and the
    builder and programmer calls made, oldest first. *)
Record Session : Type := {
  soc   : option World;
  tools : list tool_call
}.

Definition new_session : Session := {| soc := None; tools := [] |}.

(** [parser.parse_args()]: [--with-ethernet] and [--with-etherbone] are in a
    mutually exclusive group, so giving both is a usage error (exit status
    2). *)
Definition parse_args (argv : Args.t) : M Session Args.t :=
  if Args.with_ethernet argv && Args.with_etherbone argv
  then raise (SystemExit 2)
  else ret argv.

(** [assert c], with assertions enabled (the interpreter's default). *)
Definition assert (c : bool) : M Session unit :=
  if c then ret tt else raise AssertionError.

(** [soc = BaseSoC(...)]. *)
Definition construct (c : Config) : M Session unit :=
  fun s => let '(w, r) := BaseSoC c in ({| soc := Some w; tools := tools s |}, r).

Definition tool (c : tool_call) : M Session unit :=
  modify (fun s => {| soc := soc s; tools := tools s ++ [c] |}).

(** The keyword arguments [main] passes to [BaseSoC]; [with_qpll] is not
    among them and keeps its default. *)
Definition config_of_args (args : Args.t) : Config :=
  {| hw_rev         := Args.hw_rev args;
     toolchain      := Args.toolchain args;
     sys_clk_freq   := Args.sys_clk_freq args;
     with_xadc      := Args.with_xadc args;
     with_dna       := Args.with_dna args;
     with_ethernet  := Args.with_ethernet args;
     with_etherbone := Args.with_etherbone args;
     eth_ip         := Args.eth_ip args;
     eth_dynamic_ip := Args.eth_dynamic_ip args;
     with_spi_flash := Args.with_spi_flash args;
     with_qpll      := with_qpll (default_config (Args.hw_rev args));
     kwargs         := Args.soc_argdict args |}.

Definition main_body (argv : Args.t) : M Session unit :=
  args <- parse_args argv ;;
  assert (negb (Args.with_etherbone args && Args.eth_dynamic_ip args)) ;;;
  construct (config_of_args args) ;;;
  tool Builder_new ;;;
  when (Args.build args) (tool builder_build) ;;;
  when (Args.load args)
    (tool create_programmer ;;;
     tool (load_bitstream "sram")) ;;;
  when (Args.flash args)
    (raise (A := unit) (NotImplementedError "Flash not supported on Sinara Kasli.") ;;;
     tool create_programmer ;;;
     tool (prog_flash 0 "flash")).

Definition main (argv : Args.t) : Session * (exn + unit) :=
  main_body argv new_session.

(** The names of the clock domains a [_CRG] registered. *)
Definition domain_names (c : CRG) : list string := map cd_name (clock_domains c).

(** ** Observations on the state a run reached *)

(** [self.crg.qpll], if both attributes exist. *)
Definition qpll_of (w : World) : option QPLL :=
  match crg_of w with
  | Some c => qpll c
  | None => None
  end.

(** [self.ethphy], if the PHY was constructed. *)
Definition ethphy_of (w : World) : option A7_1000BASEX :=
  match attrs w !! "ethphy" with
  | Some (AEthPHY p) => Some p
  | _ => None
  end.

(** The outputs requested from a synthesizer for the domain called [name]. *)
Definition clkouts_for (name : string) (pll : S7MMCM) : list clkout :=
  List.filter (fun o => String.eqb (cd_name (co_cd o)) name) (clkouts pll).

Definition ethernet_calls (l : list soc_call) : list (A7_1000BASEX * bool) :=
  flat_map (fun c => match c with add_ethernet p d => [(p, d)] | _ => [] end) l.

Definition etherbone_calls (l : list soc_call) : list (A7_1000BASEX * string * Z) :=
  flat_map (fun c => match c with add_etherbone p ip n => [(p, ip, n)] | _ => [] end) l.

Definition is_add_spi_flash (c : soc_call) : bool :=
  match c with add_spi_flash _ _ _ _ => true | _ => false end.

Definition is_programmer_call (c : tool_call) : bool :=
  match c with
  | create_programmer | load_bitstream _ | prog_flash _ _ => true
  | Builder_new | builder_build => false
  end.

Definition is_prog_flash (c : tool_call) : bool :=
  match c with prog_flash _ _ => true | _ => false end.

(** The reference clock resource and the objects [_CRG] builds from
    constants. *)
Definition clk125_gtp : resource := {| res_name := "clk125_gtp"; res_number := None |}.

Definition IBUFDS_GTE2 : Instance :=
  {| inst_of := "IBUFDS_GTE2";
     inst_ports := [("i_CEB", const 0);
                    ("i_I", pad_p clk125_gtp); ("i_IB", pad_n clk125_gtp);
                    ("o_O", clk125_buf_sig); ("o_ODIV2", clk125_div2_sig)] |}.

Definition sgmii_qpll : QPLL :=
  QPLL_new clk125_buf_sig {| refclksel := 1; fbdiv := 4; fbdiv_45 := 5; refclk_div := 1 |}.

(** The PHY the constructor builds for a system clock of [f]. *)
Definition sfp0_phy (f : float) : A7_1000BASEX :=
  {| qpll_channel := 0; data_pads := {| res_name := "sfp"; res_number := Some 0 |};
     eth_sys_clk_freq := clk_freq_of f; with_csr := false |}.

(** The state [_CRG] leaves behind: one more resource requested and one
    more period constraint on the platform, nothing else touched. *)
Definition after_CRG (w : World) : World :=
  {| platform := Platform_add_period_constraint clk125_gtp 8%float
                   (Platform_request clk125_gtp (platform w));
     attrs := attrs w; soc_calls := soc_calls w |}.

(** The signal bound to the port [name] of an instance. *)
Definition port (name : string) (i : Instance) : option signal :=
  snd <$> List.find (fun p => String.eqb (fst p) name) (inst_ports i).

(** A [_CRG] without the DRAM part: [sys] is the only clock domain and the
    only output requested from the synthesizer, and there is no
    [S7IDELAYCTRL]. *)
Definition sys_only (crg : CRG) : Prop :=
  domain_names crg = ["sys"] /\
  cd_sys4x crg = None /\ cd_sys4x_dqs crg = None /\ cd_idelay crg = None /\
  idelayctrl crg = None /\
  map (fun o => cd_name (co_cd o)) (clkouts (pll crg)) = ["sys"].

(** The synthesizer has exactly one output for [sys4x] and one for
    [sys4x_dqs], both requested at four times [f], at phases 0 and 90. *)
Definition sys4x_pair (f : float) (pll : S7MMCM) : Prop :=
  exists o4 odqs,
    clkouts_for "sys4x" pll = [o4] /\
    clkouts_for "sys4x_dqs" pll = [odqs] /\
    co_freq o4 = (4 * f)%float /\
    co_freq odqs = co_freq o4 /\
    co_phase o4 = 0 /\
    co_phase odqs = 90 /\
    co_phase odqs - co_phase o4 = 90.

(** Concrete inputs. *)

Definition set_with_qpll (b : bool) (c : Config) : Config :=
  {| hw_rev := hw_rev c; toolchain := toolchain c; sys_clk_freq := sys_clk_freq c;
     with_xadc := with_xadc c; with_dna := with_dna c;
     with_ethernet := with_ethernet c; with_etherbone := with_etherbone c;
     eth_ip := eth_ip c; eth_dynamic_ip := eth_dynamic_ip c;
     with_spi_flash := with_spi_flash c; with_qpll := b; kwargs := kwargs c |}.

Definition set_with_ethernet (b : bool) (c : Config) : Config :=
  {| hw_rev := hw_rev c; toolchain := toolchain c; sys_clk_freq := sys_clk_freq c;
     with_xadc := with_xadc c; with_dna := with_dna c;
     with_ethernet := b; with_etherbone := with_etherbone c;
     eth_ip := eth_ip c; eth_dynamic_ip := eth_dynamic_ip c;
     with_spi_flash := with_spi_flash c; with_qpll := with_qpll c; kwargs := kwargs c |}.

Definition set_with_spi_flash (b : bool) (c : Config) : Config :=
  {| hw_rev := hw_rev c; toolchain := toolchain c; sys_clk_freq := sys_clk_freq c;
     with_xadc := with_xadc c; with_dna := with_dna c;
     with_ethernet := with_ethernet c; with_etherbone := with_etherbone c;
     eth_ip := eth_ip c; eth_dynamic_ip := eth_dynamic_ip c;
     with_spi_flash := b; with_qpll := with_qpll c; kwargs := kwargs c |}.

Definition set_kwargs (k : gmap string Z) (c : Config) : Config :=
  {| hw_rev := hw_rev c; toolchain := toolchain c; sys_clk_freq := sys_clk_freq c;
     with_xadc := with_xadc c; with_dna := with_dna c;
     with_ethernet := with_ethernet c; with_etherbone := with_etherbone c;
     eth_ip := eth_ip c; eth_dynamic_ip := eth_dynamic_ip c;
     with_spi_flash := with_spi_flash c; with_qpll := with_qpll c; kwargs := k |}.

(** [BaseSoC("v2.0", with_qpll=False)]: DRAM, no QPLL, no Ethernet, no
    Etherbone. *)
Definition no_qpll_config : Config := set_with_qpll false (default_config "v2.0").

(** [BaseSoC("v2.0", with_qpll=False, with_ethernet=True)]. *)
Definition ethernet_config : Config := set_with_ethernet true no_qpll_config.

(** [BaseSoC("v2.0", with_qpll=False, with_spi_flash=True)]. *)
Definition spi_no_qpll_config : Config := set_with_spi_flash true no_qpll_config.

(** [BaseSoC("v2.0", with_spi_flash=True)]. *)
Definition spi_config : Config := set_with_spi_flash true (default_config "v2.0").

(** [BaseSoC("v2.0", integrated_main_ram_size=0x10000)]. *)
Definition integrated_ram_config : Config :=
  set_kwargs {[ "integrated_main_ram_size" := 65536 ]} (default_config "v2.0").

Definition args_with (flash load etherbone dynamic_ip : bool) : Args.t :=
  {| Args.flash := flash; Args.hw_rev := "v2.0"; Args.sys_clk_freq := 125e6%float;
     Args.with_xadc := false; Args.with_dna := false;
     Args.with_ethernet := false; Args.with_etherbone := etherbone;
     Args.eth_ip := "192.168.1.50"; Args.eth_dynamic_ip := dynamic_ip;
     Args.with_spi_flash := false; Args.toolchain := "vivado";
     Args.build := false; Args.load := load; Args.soc_argdict := ∅ |}.

(** [--with-etherbone --eth-dynamic-ip] *)
Definition argv_etherbone_dynamic : Args.t := args_with false false true true.
(** [--with-etherbone] *)
Definition argv_etherbone_static : Args.t := args_with false false true false.
(** [--flash] *)
Definition argv_flash : Args.t := args_with true false false false.
(** [--flash --load] *)
Definition argv_flash_load : Args.t := args_with true true false false.
(** [--flash --with-etherbone --eth-dynamic-ip] *)
Definition argv_flash_etherbone_dynamic : Args.t := args_with true false true true.

(** The DDR3 PHY the constructor builds for a system clock of [f]. *)
Definition ddr3_phy (f : float) : A7DDRPHY :=
  {| ddr_pads := {| res_name := "ddram"; res_number := None |};
     ddr_memtype := "DDR3"; ddr_nphases := 4; ddr_sys_clk_freq := f |}.

(** Whether [main] stops before it enters [BaseSoC]: at the parser or at the
    [assert]. *)
Definition rejected (argv : Args.t) : bool :=
  Args.with_ethernet argv && Args.with_etherbone argv
  || Args.with_etherbone argv && Args.eth_dynamic_ip argv.

(** A command line giving the flags named, everything else at its
    default. *)
Definition args_of_flags
    (ethernet etherbone dynamic_ip spi_flash flash build load : bool) : Args.t :=
  {| Args.flash := flash; Args.hw_rev := "v2.0"; Args.sys_clk_freq := 125e6%float;
     Args.with_xadc := false; Args.with_dna := false;
     Args.with_ethernet := ethernet; Args.with_etherbone := etherbone;
     Args.eth_ip := "192.168.1.50"; Args.eth_dynamic_ip := dynamic_ip;
     Args.with_spi_flash := spi_flash; Args.toolchain := "vivado";
     Args.build := build; Args.load := load; Args.soc_argdict := ∅ |}.

(** [--with-ethernet --with-etherbone] *)
Definition argv_ethernet_etherbone : Args.t :=
  args_of_flags true true false false false false false.
(** [--with-ethernet --eth-dynamic-ip] *)
Definition argv_ethernet_dynamic : Args.t :=
  args_of_flags true false true false false false false.
(** [--with-spi-flash --build --load --flash] *)
Definition argv_spi_flash_build_load_flash : Args.t :=
  args_of_flags false false false true true true true.

(** ** The libraries may raise *)

(** The places where the file calls into the platform, LiteX, LiteDRAM and
    LiteEth after the [_CRG] is stored, in the order a run reaches them. *)
Inductive site : Type :=
| at_SoCCore                  (* line 99 *)
| at_XADC                     (* line 103 *)
| at_DNA                      (* line 107 *)
| at_DNA_timing               (* line 108 *)
| at_request_ddram            (* line 112 *)
| at_A7DDRPHY                 (* line 112 *)
| at_MT41K256M16              (* line 118 *)
| at_add_sdram                (* line 116 *)
| at_request_sfp              (* line 126 *)
| at_A7_1000BASEX             (* line 124 *)
| at_add_ethernet             (* line 131 *)
| at_add_etherbone            (* line 133 *)
| at_Builder                  (* line 176 *)
| at_build                    (* line 178 *)
| at_create_programmer        (* line 181 *)
| at_get_bitstream_filename   (* line 182 *)
| at_load_bitstream           (* line 182 *)
| at_prog_flash.              (* line 187 *)

#[global] Instance site_eq_dec : EqDecision site.
Proof. solve_decision. Defined.

(** How the libraries behave in one run: for each call site, [Some e] when
    the call made there raises [e], [None] when it returns.  A run reaches a
    site at most once, so this covers every behaviour a library can show in
    a run, whatever it depends on. *)
Record Library : Type := {
  lib_SoCCore                : option exn;
  lib_XADC                   : option exn;
  lib_DNA                    : option exn;
  lib_DNA_timing             : option exn;
  lib_request_ddram          : option exn;
  lib_A7DDRPHY               : option exn;
  lib_MT41K256M16            : option exn;
  lib_add_sdram              : option exn;
  lib_request_sfp            : option exn;
  lib_A7_1000BASEX           : option exn;
  lib_add_ethernet           : option exn;
  lib_add_etherbone          : option exn;
  lib_Builder                : option exn;
  lib_build                  : option exn;
  lib_create_programmer      : option exn;
  lib_get_bitstream_filename : option exn;
  lib_load_bitstream         : option exn;
  lib_prog_flash             : option exn
}.

Definition raises (lib : Library) (s : site) : option exn :=
  match s with
  | at_SoCCore => lib_SoCCore lib
  | at_XADC => lib_XADC lib
  | at_DNA => lib_DNA lib
  | at_DNA_timing => lib_DNA_timing lib
  | at_request_ddram => lib_request_ddram lib
  | at_A7DDRPHY => lib_A7DDRPHY lib
  | at_MT41K256M16 => lib_MT41K256M16 lib
  | at_add_sdram => lib_add_sdram lib
  | at_request_sfp => lib_request_sfp lib
  | at_A7_1000BASEX => lib_A7_1000BASEX lib
  | at_add_ethernet => lib_add_ethernet lib
  | at_add_etherbone => lib_add_etherbone lib
  | at_Builder => lib_Builder lib
  | at_build => lib_build lib
  | at_create_programmer => lib_create_programmer lib
  | at_get_bitstream_filename => lib_get_bitstream_filename lib
  | at_load_bitstream => lib_load_bitstream lib
  | at_prog_flash => lib_prog_flash lib
  end.

(** The libraries in a run in which none of their calls raises. *)
Definition all_return : Library :=
  {| lib_SoCCore := None; lib_XADC := None; lib_DNA := None; lib_DNA_timing := None;
     lib_request_ddram := None; lib_A7DDRPHY := None; lib_MT41K256M16 := None;
     lib_add_sdram := None; lib_request_sfp := None; lib_A7_1000BASEX := None;
     lib_add_ethernet := None; lib_add_etherbone := None; lib_Builder := None;
     lib_build := None; lib_create_programmer := None;
     lib_get_bitstream_filename := None; lib_load_bitstream := None;
     lib_prog_flash := None |}.

(** The libraries in a run in which the DDR3 PHY constructor raises [e], as
    it does when the memory clock is out of range. *)
Definition ddrphy_raises (e : exn) : Library :=
  {| lib_SoCCore := None; lib_XADC := None; lib_DNA := None; lib_DNA_timing := None;
     lib_request_ddram := None; lib_A7DDRPHY := Some e; lib_MT41K256M16 := None;
     lib_add_sdram := None; lib_request_sfp := None; lib_A7_1000BASEX := None;
     lib_add_ethernet := None; lib_add_etherbone := None; lib_Builder := None;
     lib_build := None; lib_create_programmer := None;
     lib_get_bitstream_filename := None; lib_load_bitstream := None;
     lib_prog_flash := None |}.

(** The call at site [s]: it raises what the library raises there, or
    returns. *)
Definition lib_call {S} (lib : Library) (s : site) : M S unit :=
  match raises lib s with
  | Some e => raise e
  | None => ret tt
  end.

(** The first exception the library raises along the sites [l]. *)
Fixpoint first_raise (lib : Library) (l : list site) : option exn :=
  match l with
  | [] => None
  | s :: l' =>
      match raises lib s with
      | Some e => Some e
      | None => first_raise lib l'
      end
  end.

(** The library call sites a construction reaches when none of them raises:
    the run stops at [self.crg.qpll] when there is no QPLL. *)
Definition sites_of (c : Config) : list site :=
  [at_SoCCore]
  ++ (if with_xadc c then [at_XADC] else [])
  ++ (if with_dna c then [at_DNA; at_DNA_timing] else [])
  ++ (if with_dram c
      then [at_request_ddram; at_A7DDRPHY; at_MT41K256M16; at_add_sdram] else [])
  ++ (if effective_with_qpll c
      then [at_request_sfp; at_A7_1000BASEX]
           ++ (if with_ethernet c then [at_add_ethernet] else [])
           ++ (if with_etherbone c then [at_add_etherbone] else [])
      else []).

(** The body of the constructor with the library calls at their sites; the
    constructor's own statements are those of [BaseSoC_body]. *)
Definition BaseSoC_body_lib (lib : Library) (c : Config) : M World unit :=
  (* CRG *)
  let with_dram := with_dram c in
  let with_qpll := effective_with_qpll c in
  crg <- _CRG (sys_clk_freq c) with_dram with_qpll ;;
  setattr "crg" (ACRG crg) ;;;
  (* SoCCore *)
  lib_call lib at_SoCCore ;;;
  SoCCore_init (sys_clk_freq c) (kwargs c) ;;;
  (* XADC *)
  when (with_xadc c)
    (lib_call lib at_XADC ;;;
     setattr "xadc" AXADC) ;;;
  (* DNA *)
  when (with_dna c)
    (lib_call lib at_DNA ;;;
     setattr "dna" (ADNA {| dna_timing := None |}) ;;;
     v <- getattr "crg" ;; crg <- as_crg v ;;
     lib_call lib at_DNA_timing ;;;
     setattr "dna" (ADNA {| dna_timing := Some (sys_clk_freq c, cd_clk (cd_sys crg)) |})) ;;;
  (* DDR3 SDRAM *)
  v <- getattr "integrated_main_ram_size" ;; size <- as_int v ;;
  when (size =? 0)%Z
    (lib_call lib at_request_ddram ;;;
     pads <- request "ddram" None ;;
     lib_call lib at_A7DDRPHY ;;;
     setattr "ddrphy" (ADDRPHY {| ddr_pads := pads; ddr_memtype := "DDR3";
                                  ddr_nphases := 4; ddr_sys_clk_freq := sys_clk_freq c |}) ;;;
     v <- getattr "ddrphy" ;; phy <- as_ddrphy v ;;
     lib_call lib at_MT41K256M16 ;;;
     lib_call lib at_add_sdram ;;;
     call (add_sdram "sdram" phy ("MT41K256M16", sys_clk_freq c, "1:4")
                     (dict_get (kwargs c) "l2_size" 8192))) ;;;
  (* Ethernet / Etherbone *)
  v <- getattr "crg" ;; crg <- as_crg v ;;
  q <- attr_of "_CRG" "qpll" (qpll crg) ;;
  channel <- index "channels" (channels q) 0 ;;
  getattr "platform" ;;;
  lib_call lib at_request_sfp ;;;
  pads <- request "sfp" (Some 0) ;;
  v <- getattr "clk_freq" ;; clk_freq <- as_clk_freq v ;;
  lib_call lib at_A7_1000BASEX ;;;
  setattr "ethphy" (AEthPHY {| qpll_channel := channel; data_pads := pads;
                               eth_sys_clk_freq := clk_freq; with_csr := false |}) ;;;
  when (with_ethernet c)
    (v <- getattr "ethphy" ;; phy <- as_ethphy v ;;
     lib_call lib at_add_ethernet ;;;
     call (add_ethernet phy (eth_dynamic_ip c))) ;;;
  when (with_etherbone c)
    (v <- getattr "ethphy" ;; phy <- as_ethphy v ;;
     lib_call lib at_add_etherbone ;;;
     call (add_etherbone phy (eth_ip c) 4)) ;;;
  (* SPI Flash *)
  when (with_spi_flash c)
    (raise (A := unit) (NotImplementedError "SPI Flash not supported on Sinara Kasli.") ;;;
     call (add_spi_flash "4x" ("S25FL128L", "READ_1_1_4") "1:2" true)).

(** [BaseSoC(...)] with libraries that behave as [lib]. *)
Definition BaseSoC_lib (lib : Library) (c : Config) : World * (exn + unit) :=
  BaseSoC_body_lib lib c (new_world (Platform_new (hw_rev c) (toolchain c))).

(** How a construction ends when the library behaves as [lib]: with the
    first exception the library raises; else with the [AttributeError] when
    there is no QPLL; else with the [NotImplementedError] when SPI flash is
    requested; else it returns. *)
Definition outcome (lib : Library) (c : Config) : exn + unit :=
  match first_raise lib (sites_of c) with
  | Some e => inl e
  | None =>
      if effective_with_qpll c
      then if with_spi_flash c
           then inl (NotImplementedError "SPI Flash not supported on Sinara Kasli.")
           else inr tt
      else inl (AttributeError "_CRG" "qpll")
  end.

(** Whether the run of a construction gets past site [s]: [s] is among the
    sites of the configuration and no call up to it raises. *)
Fixpoint ran_in (lib : Library) (l : list site) (s : site) : bool :=
  match l with
  | [] => false
  | x :: l' =>
      match raises lib x with
      | Some _ => false
      | None => if bool_decide (x = s) then true else ran_in lib l' s
      end
  end.

Definition ran (lib : Library) (c : Config) (s : site) : bool :=
  ran_in lib (sites_of c) s.

(** The integration methods a construction invokes when it gets to the
    end. *)
Definition integration_calls (c : Config) : list soc_call :=
  (if with_dram c
   then [add_sdram "sdram" (ddr3_phy (sys_clk_freq c))
           ("MT41K256M16", sys_clk_freq c, "1:4")
           (dict_get (kwargs c) "l2_size" 8192)]
   else [])
  ++ (if with_ethernet c
      then [add_ethernet (sfp0_phy (sys_clk_freq c)) (eth_dynamic_ip c)] else [])
  ++ (if with_etherbone c
      then [add_etherbone (sfp0_phy (sys_clk_freq c)) (eth_ip c) 4] else []).

(** [soc = BaseSoC(...)] with libraries that behave as [lib]. *)
Definition construct_lib (lib : Library) (c : Config) : M Session unit :=
  fun s => let '(w, r) := BaseSoC_lib lib c in ({| soc := Some w; tools := tools s |}, r).

(** The library call sites of [main] after the construction. *)
Definition tool_sites (args : Args.t) : list site :=
  [at_Builder]
  ++ (if Args.build args then [at_build] else [])
  ++ (if Args.load args
      then [at_create_programmer; at_get_bitstream_filename; at_load_bitstream]
      else []).

(** The builder and programmer actions of a run that gets to the end. *)
Definition build_actions (args : Args.t) : list tool_call :=
  Builder_new
    :: (if Args.build args then [builder_build] else [])
    ++ (if Args.load args then [create_programmer; load_bitstream "sram"] else []).

Definition main_body_lib (lib : Library) (argv : Args.t) : M Session unit :=
  args <- parse_args argv ;;
  assert (negb (Args.with_etherbone args && Args.eth_dynamic_ip args)) ;;;
  construct_lib lib (config_of_args args) ;;;
  lib_call lib at_Builder ;;;
  tool Builder_new ;;;
  when (Args.build args)
    (lib_call lib at_build ;;;
     tool builder_build) ;;;
  when (Args.load args)
    (lib_call lib at_create_programmer ;;;
     tool create_programmer ;;;
     lib_call lib at_get_bitstream_filename ;;;
     lib_call lib at_load_bitstream ;;;
     tool (load_bitstream "sram")) ;;;
  when (Args.flash args)
    (raise (A := unit) (NotImplementedError "Flash not supported on Sinara Kasli.") ;;;
     lib_call lib at_create_programmer ;;;
     tool create_programmer ;;;
     lib_call lib at_get_bitstream_filename ;;;
     lib_call lib at_prog_flash ;;;
     tool (prog_flash 0 "flash")).

(** [main()] with libraries that behave as [lib]. *)
Definition main_lib (lib : Library) (argv : Args.t) : Session * (exn + unit) :=
  main_body_lib lib argv new_session.


(** [BaseSoC("v2.0", with_xadc=True, with_dna=True)]. *)
Definition xadc_dna_config : Config :=
  {| hw_rev := "v2.0"; toolchain := "vivado"; sys_clk_freq := 125e6%float;
     with_xadc := true; with_dna := true;
     with_ethernet := false; with_etherbone := false;
     eth_ip := "192.168.1.70"; eth_dynamic_ip := false;
     with_spi_flash := false; with_qpll := true; kwargs := ∅ |}.

(** The keyword arguments that hold just the two values a construction
    reads. *)
Definition canon (sz l2 : Z) : gmap string Z :=
  {[ "integrated_main_ram_size" := sz; "l2_size" := l2 ]}.

Definition canonical (c : Config) : Config :=
  set_kwargs (canon (dict_get (kwargs c) "integrated_main_ram_size" 0)
                    (dict_get (kwargs c) "l2_size" 8192)) c.

(** The builder and programmer actions a run of [main] has made when the
    library behaves as [lib]. *)
Definition tools_run (lib : Library) (args : Args.t) : list tool_call :=
  (if ran_in lib (tool_sites args) at_Builder then [Builder_new] else [])
  ++ (if ran_in lib (tool_sites args) at_build then [builder_build] else [])
  ++ (if ran_in lib (tool_sites args) at_create_programmer then [create_programmer] else [])
  ++ (if ran_in lib (tool_sites args) at_load_bitstream then [load_bitstream "sram"] else []).

(** ** Proof automation *)

(** Every path through [BaseSoC]: the six flags the constructor branches
    on, and whether the integrated main RAM size is zero, positive or
    negative.  The values it only passes on stay symbolic. *)
Ltac config_cases c :=
  destruct c as [hw tc f xadc dna eth ebone ip dyn spi q kw];
  unfold BaseSoC, BaseSoC_body, SoCCore_init, with_dram, effective_with_qpll;
  cbn [hw_rev toolchain sys_clk_freq with_xadc with_dna with_ethernet with_etherbone
       eth_ip eth_dynamic_ip with_spi_flash with_qpll kwargs];
  generalize (dict_get kw "l2_size" 8192); intros l2;
  generalize (dict_get kw "integrated_main_ram_size" 0); intros sz;
  destruct xadc, dna, eth, ebone, spi, q, sz as [|sz|sz].

Ltac run := vm_compute; reflexivity.

(** ** The monad *)

Section Monad_laws.
Context {S A B : Type}.

Lemma bind_ret (a : A) (k : A -> M S B) (s : S) : bind (ret a) k s = k a s.
Proof. reflexivity. Qed.

(** Nothing after a [raise] runs: the state is the one at the [raise]. *)
Lemma bind_raise (e : exn) (k : A -> M S B) (s : S) :
  bind (raise e) k s = (s, inl e).
Proof. reflexivity. Qed.

Lemma bind_inl (m : M S A) (k : A -> M S B) (s s' : S) (e : exn) :
  m s = (s', inl e) -> bind m k s = (s', inl e).
Proof. intros H. unfold bind. now rewrite H. Qed.

Lemma bind_inr (m : M S A) (k : A -> M S B) (s s' : S) (a : A) :
  m s = (s', inr a) -> bind m k s = k a s'.
Proof. intros H. unfold bind. now rewrite H. Qed.
End Monad_laws.

Lemma when_false {S} (body : M S unit) (s : S) : when false body s = (s, inr tt).
Proof. reflexivity. Qed.

Lemma when_true {S} (body : M S unit) (s : S) : when true body s = body s.
Proof. reflexivity. Qed.

(** ** [_CRG]: it always returns, and touches only the platform *)

Lemma _CRG_state (f : float) (d q : bool) (w : World) :
  fst (_CRG f d q w) = after_CRG w.
Proof. destruct d, q; reflexivity. Qed.

Lemma _CRG_returns (f : float) (d q : bool) (w : World) :
  exists crg, _CRG f d q w = (after_CRG w, inr crg).
Proof. destruct d, q; eexists; lazy; reflexivity. Qed.

(** The object depends on the arguments only, not on the state. *)
Lemma _CRG_result_indep (f : float) (d q : bool) (w w' : World) :
  snd (_CRG f d q w) = snd (_CRG f d q w').
Proof. destruct d, q; reflexivity. Qed.

(** ** [BaseSoC]: outcome and state of every construction *)

Lemma BaseSoC_outcome (c : Config) :
  snd (BaseSoC c) =
    if effective_with_qpll c
    then if with_spi_flash c
         then inl (NotImplementedError "SPI Flash not supported on Sinara Kasli.")
         else inr tt
    else inl (AttributeError "_CRG" "qpll").
Proof. config_cases c; run. Qed.

(** [self.crg] is the object [_CRG] returned for the two computed flags. *)
Lemma BaseSoC_crg (c : Config) :
  crg_of (fst (BaseSoC c)) =
    match snd (_CRG (sys_clk_freq c) (with_dram c) (effective_with_qpll c)
                    (new_world (Platform_new (hw_rev c) (toolchain c)))) with
    | inr crg => Some crg
    | inl _ => None
    end.
Proof. config_cases c; run. Qed.

Lemma BaseSoC_crg_Some (c : Config) :
  exists crg,
    crg_of (fst (BaseSoC c)) = Some crg /\
    snd (_CRG (sys_clk_freq c) (with_dram c) (effective_with_qpll c)
              (new_world (Platform_new (hw_rev c) (toolchain c)))) = inr crg.
Proof.
  destruct (_CRG_returns (sys_clk_freq c) (with_dram c) (effective_with_qpll c)
              (new_world (Platform_new (hw_rev c) (toolchain c)))) as [crg Hcrg].
  exists crg. rewrite BaseSoC_crg, Hcrg. split; reflexivity.
Qed.

Lemma BaseSoC_qpll (c : Config) :
  qpll_of (fst (BaseSoC c)) = if effective_with_qpll c then Some sgmii_qpll else None.
Proof. config_cases c; run. Qed.

Lemma BaseSoC_ethphy (c : Config) :
  ethphy_of (fst (BaseSoC c)) =
    if effective_with_qpll c then Some (sfp0_phy (sys_clk_freq c)) else None.
Proof. config_cases c; run. Qed.

Lemma BaseSoC_ethernet_calls (c : Config) :
  ethernet_calls (soc_calls (fst (BaseSoC c))) =
    if with_ethernet c then [(sfp0_phy (sys_clk_freq c), eth_dynamic_ip c)] else [].
Proof. config_cases c; run. Qed.

Lemma BaseSoC_etherbone_calls (c : Config) :
  etherbone_calls (soc_calls (fst (BaseSoC c))) =
    if with_etherbone c then [(sfp0_phy (sys_clk_freq c), eth_ip c, 4)] else [].
Proof. config_cases c; run. Qed.

Lemma BaseSoC_no_spi_flash (c : Config) :
  List.filter is_add_spi_flash (soc_calls (fst (BaseSoC c))) = [].
Proof. config_cases c; run. Qed.

(** ** [main]: every run *)

(** [main] never passes [with_qpll], so the QPLL is always requested. *)
Lemma main_requests_qpll (args : Args.t) :
  effective_with_qpll (config_of_args args) = true.
Proof. reflexivity. Qed.

Lemma main_run (argv : Args.t) :
  main argv =
    if Args.with_ethernet argv && Args.with_etherbone argv
    then (new_session, inl (SystemExit 2))
    else if Args.with_etherbone argv && Args.eth_dynamic_ip argv
    then (new_session, inl AssertionError)
    else
      let w := fst (BaseSoC (config_of_args argv)) in
      if Args.with_spi_flash argv
      then ({| soc := Some w; tools := [] |},
            inl (NotImplementedError "SPI Flash not supported on Sinara Kasli."))
      else ({| soc := Some w;
               tools := Builder_new
                          :: (if Args.build argv then [builder_build] else [])
                          ++ (if Args.load argv
                              then [create_programmer; load_bitstream "sram"] else []) |},
            if Args.flash argv
            then inl (NotImplementedError "Flash not supported on Sinara Kasli.")
            else inr tt).
Proof.
  unfold main, main_body, parse_args.
  destruct (Args.with_ethernet argv && Args.with_etherbone argv); [reflexivity |].
  rewrite bind_ret.
  destruct (Args.with_etherbone argv && Args.eth_dynamic_ip argv); [reflexivity |].
  cbn [negb assert]. rewrite bind_ret.
  pose proof (BaseSoC_outcome (config_of_args argv)) as Hout.
  rewrite main_requests_qpll in Hout. cbn [config_of_args with_spi_flash] in Hout.
  unfold bind at 1. unfold construct at 1.
  destruct (BaseSoC (config_of_args argv)) as [w r]. cbn [fst snd] in *. subst r.
  destruct (Args.with_spi_flash argv); [reflexivity |].
  destruct (Args.build argv), (Args.load argv), (Args.flash argv); reflexivity.
Qed.

(** ** The transceiver PLL policy *)

(** C1: for every [BaseSoC] configuration the [with_qpll] flag handed to
    [_CRG] is the explicit flag OR [with_ethernet] OR [with_etherbone], and
    the QPLL is instantiated in the [_CRG] exactly when that OR is true; in
    particular requesting Ethernet or Etherbone makes the flag true and puts
    the QPLL into the [_CRG], whatever the explicit flag. *)
Theorem C1_with_qpll_is_or_of_requests (c : Config) :
  (exists crg,
     crg_of (fst (BaseSoC c)) = Some crg /\
     snd (_CRG (sys_clk_freq c) (with_dram c)
               (with_qpll c || with_ethernet c || with_etherbone c)
               (new_world (Platform_new (hw_rev c) (toolchain c)))) = inr crg /\
     qpll crg = if with_qpll c || with_ethernet c || with_etherbone c
                then Some sgmii_qpll else None) /\
  (with_ethernet c || with_etherbone c = true ->
   effective_with_qpll c = true /\ qpll_of (fst (BaseSoC c)) = Some sgmii_qpll).
Proof.
  split.
  - destruct (BaseSoC_crg_Some c) as (crg & Hcrg & Hrun).
    exists crg. split; [exact Hcrg |]. split; [exact Hrun |].
    pose proof (BaseSoC_qpll c) as Hq. unfold qpll_of in Hq.
    rewrite Hcrg in Hq. exact Hq.
  - intros Hreq.
    assert (effective_with_qpll c = true) as Heff.
    { unfold effective_with_qpll. rewrite <- orb_assoc, Hreq. apply orb_true_r. }
    split; [exact Heff |]. now rewrite BaseSoC_qpll, Heff.
Qed.

Lemma C1_witness :
  with_qpll ethernet_config = false /\
  effective_with_qpll ethernet_config = true /\
  qpll_of (fst (BaseSoC ethernet_config)) = Some sgmii_qpll.
Proof.
  split; [reflexivity |].
  apply (proj2 (C1_with_qpll_is_or_of_requests ethernet_config)).
  reflexivity.
Defined.

(** What every construction with no QPLL requested, no Ethernet and no
    Etherbone does, with or without DRAM: it builds the [_CRG] without a
    QPLL and then raises at [self.crg.qpll]. *)
Lemma BaseSoC_without_qpll (c : Config) :
  with_qpll c = false -> with_ethernet c = false -> with_etherbone c = false ->
  snd (BaseSoC c) = inl (AttributeError "_CRG" "qpll") /\
  qpll_of (fst (BaseSoC c)) = None /\
  ethphy_of (fst (BaseSoC c)) = None /\
  exists crg, crg_of (fst (BaseSoC c)) = Some crg /\ qpll crg = None.
Proof.
  intros Hq He Hb.
  assert (effective_with_qpll c = false) as Heff.
  { unfold effective_with_qpll. now rewrite Hq, He, Hb. }
  rewrite BaseSoC_outcome, BaseSoC_qpll, BaseSoC_ethphy, Heff.
  repeat split.
  destruct (BaseSoC_crg_Some c) as (crg & Hcrg & _).
  exists crg. split; [exact Hcrg |].
  pose proof (BaseSoC_qpll c) as Hqpll. unfold qpll_of in Hqpll.
  now rewrite Hcrg, Heff in Hqpll.
Qed.

(** C2: at [with_dram = true], [with_qpll = false], no Ethernet and no
    Etherbone, the [_CRG] that [BaseSoC] builds has exactly the clock
    domains [sys], [sys4x], [sys4x_dqs] and [idelay] and no QPLL, but the
    construction does not succeed: it raises [AttributeError] when the
    Ethernet PHY reads [self.crg.qpll]. *)
Theorem C2_no_qpll_construction_raises :
  with_dram no_qpll_config = true /\
  with_qpll no_qpll_config = false /\
  with_ethernet no_qpll_config = false /\
  with_etherbone no_qpll_config = false /\
  (domain_names <$> crg_of (fst (BaseSoC no_qpll_config)))
    = Some ["sys"; "sys4x"; "sys4x_dqs"; "idelay"] /\
  qpll_of (fst (BaseSoC no_qpll_config)) = None /\
  snd (BaseSoC no_qpll_config) = inl (AttributeError "_CRG" "qpll").
Proof. repeat split; run. Qed.

(** ** The Ethernet PHY and the protocol stacks *)

(** C4: a [BaseSoC] construction that succeeds has [with_qpll] OR
    [with_ethernet] OR [with_etherbone]; when all three are false the
    [_CRG] has no [qpll] attribute, and the unguarded PHY construction,
    which reads [self.crg.qpll.channels[0]], raises [AttributeError]: no
    PHY is built and no SoC without a transceiver PLL comes out. *)
Theorem C4_construction_needs_qpll (c : Config) :
  (snd (BaseSoC c) = inr tt ->
   with_qpll c || with_ethernet c || with_etherbone c = true) /\
  (with_qpll c = false -> with_ethernet c = false -> with_etherbone c = false ->
   (exists crg, crg_of (fst (BaseSoC c)) = Some crg /\ qpll crg = None) /\
   snd (BaseSoC c) = inl (AttributeError "_CRG" "qpll") /\
   ethphy_of (fst (BaseSoC c)) = None).
Proof.
  split.
  - rewrite BaseSoC_outcome. unfold effective_with_qpll.
    destruct (with_qpll c || with_ethernet c || with_etherbone c);
      [reflexivity | discriminate].
  - intros Hq He Hb.
    destruct (BaseSoC_without_qpll c Hq He Hb) as (Hout & _ & Hphy & Hcrg).
    split; [exact Hcrg |]. split; [exact Hout | exact Hphy].
Qed.

Lemma C4_witness :
  (with_qpll (default_config "v2.0")
   || with_ethernet (default_config "v2.0")
   || with_etherbone (default_config "v2.0") = true) /\
  ((exists crg, crg_of (fst (BaseSoC no_qpll_config)) = Some crg /\ qpll crg = None) /\
   snd (BaseSoC no_qpll_config) = inl (AttributeError "_CRG" "qpll") /\
   ethphy_of (fst (BaseSoC no_qpll_config)) = None).
Proof.
  split.
  - apply (proj1 (C4_construction_needs_qpll (default_config "v2.0"))).
    vm_compute. reflexivity.
  - apply (proj2 (C4_construction_needs_qpll no_qpll_config)); reflexivity.
Defined.

(** ** The DRAM clock domains *)

Lemma with_dram_spec (c : Config) :
  with_dram c = true <->
  kwargs c !! "integrated_main_ram_size" = None \/
  kwargs c !! "integrated_main_ram_size" = Some 0.
Proof.
  unfold with_dram, dict_get. rewrite Z.eqb_eq.
  destruct (kwargs c !! "integrated_main_ram_size") as [z |]; simpl.
  - split; [intros ->; now right | intros [H | H]; [discriminate | congruence]].
  - split; [now left | reflexivity].
Qed.

Lemma _CRG_without_dram (f : float) (q : bool) (w : World) :
  exists crg, snd (_CRG f false q w) = inr crg /\ sys_only crg.
Proof. destruct q; eexists; (split; [reflexivity | repeat split]). Qed.

Lemma _CRG_with_dram (f : float) (q : bool) (w : World) :
  exists crg, snd (_CRG f true q w) = inr crg /\
    domain_names crg = ["sys"; "sys4x"; "sys4x_dqs"; "idelay"] /\
    idelayctrl crg = Some {| idelay_cd := {| cd_name := "idelay" |} |} /\
    sys4x_pair f (pll crg).
Proof.
  destruct q; eexists; (split; [reflexivity |]); (split; [reflexivity |]);
    (split; [reflexivity |]); do 2 eexists; repeat split.
Qed.

(** C5: [with_dram] is true exactly when [integrated_main_ram_size] is
    absent from the keyword arguments or is 0; it is the flag [_CRG] is
    built with, and whenever it is false, in [BaseSoC] or in a direct
    [_CRG] construction, there is no [sys4x], [sys4x_dqs] or [idelay]
    domain, no synthesizer output other than [sys], and no
    [S7IDELAYCTRL]. *)
Theorem C5_no_dram_domains_without_dram (c : Config) :
  (with_dram c = true <->
   kwargs c !! "integrated_main_ram_size" = None \/
   kwargs c !! "integrated_main_ram_size" = Some 0) /\
  (exists crg,
     crg_of (fst (BaseSoC c)) = Some crg /\
     snd (_CRG (sys_clk_freq c) (with_dram c) (effective_with_qpll c)
               (new_world (Platform_new (hw_rev c) (toolchain c)))) = inr crg) /\
  (with_dram c = false ->
   exists crg, crg_of (fst (BaseSoC c)) = Some crg /\ sys_only crg) /\
  (forall (f : float) (q : bool) (w : World),
   exists crg, snd (_CRG f false q w) = inr crg /\ sys_only crg).
Proof.
  split; [apply with_dram_spec |].
  split; [apply BaseSoC_crg_Some |].
  split; [| apply _CRG_without_dram].
  intros Hdram.
  destruct (BaseSoC_crg_Some c) as (crg & Hcrg & Hrun).
  exists crg. split; [exact Hcrg |].
  rewrite Hdram in Hrun.
  destruct (_CRG_without_dram (sys_clk_freq c) (effective_with_qpll c)
              (new_world (Platform_new (hw_rev c) (toolchain c))))
    as (crg' & Hrun' & Hsys).
  congruence.
Qed.

Lemma C5_witness :
  kwargs integrated_ram_config !! "integrated_main_ram_size" = Some 65536 /\
  exists crg,
    crg_of (fst (BaseSoC integrated_ram_config)) = Some crg /\ sys_only crg.
Proof.
  split; [reflexivity |].
  apply (proj1 (proj2 (proj2 (C5_no_dram_domains_without_dram integrated_ram_config)))).
  reflexivity.
Defined.

(** C6: for every configuration with [with_dram = true] and every system
    clock frequency, in [BaseSoC] or in a direct [_CRG] construction, the
    synthesizer is asked for exactly one [sys4x] and one [sys4x_dqs] output,
    both at four times the system clock frequency, [sys4x] at phase 0 and
    [sys4x_dqs] at phase 90: the same frequency, 90 degrees apart. *)
Theorem C6_sys4x_pair_same_frequency_90_degrees (c : Config) :
  (with_dram c = true ->
   exists crg,
     crg_of (fst (BaseSoC c)) = Some crg /\
     sys4x_pair (sys_clk_freq c) (pll crg)) /\
  (forall (f : float) (q : bool) (w : World),
   exists crg, snd (_CRG f true q w) = inr crg /\ sys4x_pair f (pll crg)).
Proof.
  split.
  - intros Hdram. destruct (BaseSoC_crg_Some c) as (crg & Hcrg & Hrun).
    exists crg. split; [exact Hcrg |].
    rewrite Hdram in Hrun.
    destruct (_CRG_with_dram (sys_clk_freq c) (effective_with_qpll c)
                (new_world (Platform_new (hw_rev c) (toolchain c))))
      as (crg' & Hrun' & _ & _ & Hpair).
    congruence.
  - intros f q w.
    destruct (_CRG_with_dram f q w) as (crg & Hrun & _ & _ & Hpair).
    exists crg. split; assumption.
Qed.

Lemma C6_witness :
  exists crg,
    crg_of (fst (BaseSoC (default_config "v2.0"))) = Some crg /\
    sys4x_pair 125e6%float (pll crg).
Proof.
  apply (proj1 (C6_sys4x_pair_same_frequency_90_degrees (default_config "v2.0"))).
  reflexivity.
Defined.

(** ** The checks of [main] *)

(** C7: every invocation with both [--with-etherbone] and
    [--eth-dynamic-ip] is rejected before [BaseSoC] is entered, so before
    any clock domain is configured: by the [assert], or by the parser when
    [--with-ethernet] is given as well.  With [--with-etherbone] and without
    [--eth-dynamic-ip] the [assert] passes, and when the parser accepted the
    command line the constructor runs and builds the [_CRG]. *)
Theorem C7_etherbone_with_dynamic_ip_rejected (argv : Args.t) :
  Args.with_etherbone argv = true ->
  (Args.eth_dynamic_ip argv = true ->
   fst (main argv) = new_session /\
   snd (main argv) =
     inl (if Args.with_ethernet argv then SystemExit 2 else AssertionError)) /\
  (Args.eth_dynamic_ip argv = false ->
   snd (main argv) <> inl AssertionError /\
   (Args.with_ethernet argv = false ->
    soc (fst (main argv)) = Some (fst (BaseSoC (config_of_args argv))) /\
    exists crg, crg_of (fst (BaseSoC (config_of_args argv))) = Some crg)).
Proof.
  intros Hb. rewrite main_run, Hb. split; intros Hdyn; rewrite Hdyn.
  - destruct (Args.with_ethernet argv); split; reflexivity.
  - split.
    + destruct (Args.with_ethernet argv), (Args.with_spi_flash argv),
        (Args.flash argv); discriminate.
    + intros ->. split.
      * destruct (Args.with_spi_flash argv); reflexivity.
      * destruct (BaseSoC_crg_Some (config_of_args argv)) as (crg & Hcrg & _).
        now exists crg.
Qed.

Lemma C7_witness :
  (fst (main argv_etherbone_dynamic) = new_session /\
   snd (main argv_etherbone_dynamic) = inl AssertionError) /\
  (snd (main argv_etherbone_static) <> inl AssertionError /\
   soc (fst (main argv_etherbone_static))
     = Some (fst (BaseSoC (config_of_args argv_etherbone_static)))).
Proof.
  split.
  - apply (proj1 (C7_etherbone_with_dynamic_ip_rejected argv_etherbone_dynamic eq_refl)).
    reflexivity.
  - destruct (proj2 (C7_etherbone_with_dynamic_ip_rejected argv_etherbone_static eq_refl)
                eq_refl) as [Hassert Hrun].
    split; [exact Hassert | exact (proj1 (Hrun eq_refl))].
Defined.

(** ** The unsupported features *)

(** What holds, when every library call returns, in every construction that
    asks for SPI flash: [add_spi_flash] is never reached, and once the
    Ethernet PHY could be built the construction ends in
    [NotImplementedError]. *)
Lemma BaseSoC_spi_flash_not_supported (c : Config) :
  with_spi_flash c = true ->
  List.filter is_add_spi_flash (soc_calls (fst (BaseSoC c))) = [] /\
  (effective_with_qpll c = true ->
   snd (BaseSoC c) = inl (NotImplementedError "SPI Flash not supported on Sinara Kasli.")).
Proof.
  intros Hspi. split; [apply BaseSoC_no_spi_flash |].
  intros Heff. now rewrite BaseSoC_outcome, Heff, Hspi.
Qed.

(** C8: with SPI flash requested but no QPLL, Ethernet or Etherbone, no SPI
    flash logic is instantiated, as the claim says, but the construction
    does not raise [NotImplementedError]: it raises [AttributeError] at the
    Ethernet PHY and never gets to the SPI flash section. *)
Theorem C8_spi_flash_without_qpll_raises_attribute_error :
  with_spi_flash spi_no_qpll_config = true /\
  List.filter is_add_spi_flash (soc_calls (fst (BaseSoC spi_no_qpll_config))) = [] /\
  snd (BaseSoC spi_no_qpll_config) = inl (AttributeError "_CRG" "qpll") /\
  (forall msg, snd (BaseSoC spi_no_qpll_config) <> inl (NotImplementedError msg)).
Proof.
  split; [reflexivity |]. split; [run |]. split; [run |].
  intros msg H. vm_compute in H. discriminate H.
Qed.

(** ** The reference clock input *)

(** C10: every [_CRG] construction returns, having registered an 8 ns
    period constraint on the [clk125_gtp] input (the period of 125 MHz) and
    instantiated one [IBUFDS_GTE2] on its differential pads whose [O] output
    is the buffered clock [clk125_buf] and whose [ODIV2] output is
    [clk125_div2]; the synthesizer's reference is [clk125_div2], registered
    at 125e6/2 = 62.5 MHz, and the QPLL, when instantiated, takes
    [clk125_buf]. *)
Theorem C10_reference_clock_fanout (f : float) (d q : bool) (w : World) :
  exists crg,
    _CRG f d q w = (after_CRG w, inr crg) /\
    period_constraints (platform (after_CRG w))
      = (period_constraints (platform w) ++ [(clk125_gtp, 8%float)])%list /\
    (1e9 / 125e6 = 8)%float /\
    specials crg = [IBUFDS_GTE2] /\
    port "i_I" IBUFDS_GTE2 = Some (pad_p clk125_gtp) /\
    port "i_IB" IBUFDS_GTE2 = Some (pad_n clk125_gtp) /\
    port "o_O" IBUFDS_GTE2 = Some (clk125_buf crg) /\
    port "o_ODIV2" IBUFDS_GTE2 = Some (clk125_div2 crg) /\
    clk125_buf crg = clk125_buf_sig /\
    clk125_div2 crg = clk125_div2_sig /\
    clkin (pll crg) = Some (clk125_div2 crg, (125e6 / 2)%float) /\
    (125e6 / 2 = 62.5e6)%float /\
    (2 * (125e6 / 2) = 125e6)%float /\
    qpll crg = (if q then Some sgmii_qpll else None) /\
    gtrefclk0 sgmii_qpll = clk125_buf crg.
Proof.
  destruct d, q; eexists; (split; [lazy; reflexivity |]); repeat split.
Qed.

(** * Further properties of the target *)

(** ** [_CRG]: the synthesizer and its domains *)

(** X1: in every [_CRG] the synthesizer is asked for one output per
    registered clock domain, in the order the domains were registered, with
    [sys] first; the domain names are pairwise distinct, and they are
    [sys] alone or [sys], [sys4x], [sys4x_dqs], [idelay] according to
    [with_dram]. *)
Theorem X1_one_output_per_domain (f : float) (d q : bool) (w : World) :
  exists crg,
    snd (_CRG f d q w) = inr crg /\
    map co_cd (clkouts (pll crg)) = clock_domains crg /\
    head (clock_domains crg) = Some (cd_sys crg) /\
    NoDup (domain_names crg) /\
    domain_names crg = (if d then ["sys"; "sys4x"; "sys4x_dqs"; "idelay"] else ["sys"]).
Proof.
  destruct d, q; eexists; (split; [reflexivity |]);
    (split; [reflexivity |]); (split; [reflexivity |]);
    (split; [| reflexivity]);
    apply (bool_decide_unpack _); vm_compute; exact I.
Qed.

(** X2: every [_CRG] uses a speed grade -3 MMCM and asks it for exactly one
    [sys] output, at the system clock frequency and phase 0; with DRAM it
    asks for exactly one [idelay] output at 200 MHz and phase 0, whatever
    the system clock frequency, and binds the [S7IDELAYCTRL] to that
    domain. *)
Theorem X2_sys_and_idelay_outputs (f : float) (q : bool) (w : World) :
  (forall d : bool,
   exists crg,
     snd (_CRG f d q w) = inr crg /\
     speedgrade (pll crg) = -3 /\
     clkouts_for "sys" (pll crg)
       = [{| co_cd := cd_sys crg; co_freq := f; co_phase := 0 |}]) /\
  (exists crg idelay,
     snd (_CRG f true q w) = inr crg /\
     cd_idelay crg = Some idelay /\
     cd_name idelay = "idelay" /\
     clkouts_for "idelay" (pll crg)
       = [{| co_cd := idelay; co_freq := 200e6%float; co_phase := 0 |}] /\
     idelayctrl crg = Some {| idelay_cd := idelay |}).
Proof.
  split.
  - intros d. destruct d, q; eexists; repeat split.
  - destruct q; do 2 eexists; repeat split.
Qed.

(** ** [BaseSoC]: what every construction builds *)

(** Two runs that differ only in what follows a common first step reach the
    same state if the continuations do. *)
Lemma bind_fst_congr {S A B} (m : M S A) (k k' : A -> M S B) :
  (forall a s, fst (k a s) = fst (k' a s)) ->
  forall s, fst (bind m k s) = fst (bind m k' s).
Proof.
  intros Hk s. unfold bind. destruct (m s) as [s' [e | a]]; [reflexivity | apply Hk].
Qed.

(** X8: [with_spi_flash] decides only how a construction ends: the platform,
    the attributes and the integration calls are the same whether it is set
    or not, so the [NotImplementedError] is raised after everything else has
    been built. *)
Theorem X8_spi_flash_changes_only_the_outcome (c : Config) (b : bool) :
  fst (BaseSoC (set_with_spi_flash b c)) = fst (BaseSoC c).
Proof.
  destruct c as [hw tc f xadc dna eth ebone ip dyn spi q kw].
  unfold set_with_spi_flash, BaseSoC, BaseSoC_body, with_dram, effective_with_qpll.
  cbn [hw_rev toolchain sys_clk_freq with_xadc with_dna with_ethernet with_etherbone
       eth_ip eth_dynamic_ip with_spi_flash with_qpll kwargs].
  cbv zeta.
  generalize (new_world (Platform_new hw tc)).
  repeat (apply bind_fst_congr; intros).
  destruct b, spi; reflexivity.
Qed.

(** ** [main]: every command line *)

(** X9: a command line with both [--with-ethernet] and [--with-etherbone]
    is a usage error: [main] exits with status 2 before the [assert] and
    before anything is constructed, whatever else is on the command line. *)
Theorem X9_ethernet_and_etherbone_exclusive (argv : Args.t) :
  Args.with_ethernet argv = true -> Args.with_etherbone argv = true ->
  main argv = (new_session, inl (SystemExit 2)).
Proof. intros He Hb. now rewrite main_run, He, Hb. Qed.

Lemma X9_witness : main argv_ethernet_etherbone = (new_session, inl (SystemExit 2)).
Proof. apply (X9_ethernet_and_etherbone_exclusive argv_ethernet_etherbone); reflexivity. Defined.

(** * The target with libraries that may raise *)

(** ** Case analysis over a run *)

(** A construction reads its keyword arguments through
    [integrated_main_ram_size] and [l2_size] only, so it runs the same on
    the map that holds just these two values. *)
Lemma canon_main_ram (sz l2 : Z) :
  dict_get (canon sz l2) "integrated_main_ram_size" 0 = sz.
Proof. reflexivity. Qed.

Lemma canon_l2 (sz l2 : Z) : dict_get (canon sz l2) "l2_size" 8192 = l2.
Proof. reflexivity. Qed.

Lemma canonical_BaseSoC_lib (lib : Library) (c : Config) :
  BaseSoC_lib lib (canonical c) = BaseSoC_lib lib c.
Proof.
  destruct c as [hw tc f xadc dna eth ebone ip dyn spi q kw].
  unfold canonical, set_kwargs, BaseSoC_lib, BaseSoC_body_lib, SoCCore_init, with_dram.
  cbn [hw_rev toolchain sys_clk_freq with_xadc with_dna with_ethernet with_etherbone
       eth_ip eth_dynamic_ip with_spi_flash with_qpll kwargs].
  rewrite !canon_main_ram, !canon_l2. reflexivity.
Qed.

Lemma canonical_BaseSoC (c : Config) : BaseSoC (canonical c) = BaseSoC c.
Proof.
  destruct c as [hw tc f xadc dna eth ebone ip dyn spi q kw].
  unfold canonical, set_kwargs, BaseSoC, BaseSoC_body, SoCCore_init, with_dram.
  cbn [hw_rev toolchain sys_clk_freq with_xadc with_dna with_ethernet with_etherbone
       eth_ip eth_dynamic_ip with_spi_flash with_qpll kwargs].
  rewrite !canon_main_ram, !canon_l2. reflexivity.
Qed.

(** Follow the run of the construction in the goal: one case for each
    library call site on its path raising, and one for all of them
    returning.  Sites off the path are never consulted. *)
Ltac walk_list ss :=
  lazymatch ss with
  | nil => idtac
  | cons ?s ?rest =>
      lazymatch goal with
      | |- context [BaseSoC_lib ?l _] =>
          let o := eval cbn in (raises l s) in
          destruct o as [? |]; [ | walk_list rest ]
      end
  end.

Ltac walk_sites :=
  lazymatch goal with
  | |- context [BaseSoC_lib _ ?c] =>
      let ss := eval vm_compute in (sites_of c) in walk_list ss
  end.

Ltac lib_config_cases lib c :=
  rewrite <- (canonical_BaseSoC_lib lib c), <- ?(canonical_BaseSoC c);
  unfold outcome, ran, integration_calls, sites_of, with_dram, effective_with_qpll, canonical;
  generalize (dict_get (kwargs c) "l2_size" 8192); intros l2;
  generalize (dict_get (kwargs c) "integrated_main_ram_size" 0); intros sz;
  destruct c as [hw tc f xadc dna eth ebone ip dyn spi q kw];
  unfold set_kwargs;
  cbn [hw_rev toolchain sys_clk_freq with_xadc with_dna with_ethernet with_etherbone
       eth_ip eth_dynamic_ip with_spi_flash with_qpll kwargs];
  destruct xadc, dna, eth, ebone, spi, q, sz as [|sz|sz];
  destruct lib as [o1 o2 o3 o4 o5 o6 o7 o8 o9 o10 o11 o12 o13 o14 o15 o16 o17 o18];
  walk_sites.

(** ** Every construction, whatever the libraries do *)

Lemma BaseSoC_lib_outcome (lib : Library) (c : Config) :
  snd (BaseSoC_lib lib c) = outcome lib c.
Proof. lib_config_cases lib c; run. Qed.

(** The [_CRG] is stored before the first library call. *)
Lemma BaseSoC_lib_crg (lib : Library) (c : Config) :
  crg_of (fst (BaseSoC_lib lib c)) = crg_of (fst (BaseSoC c)).
Proof. lib_config_cases lib c; run. Qed.

Lemma BaseSoC_lib_xadc (lib : Library) (c : Config) :
  attrs (fst (BaseSoC_lib lib c)) !! "xadc"
    = if ran lib c at_XADC then Some AXADC else None.
Proof. lib_config_cases lib c; run. Qed.

Lemma BaseSoC_lib_dna (lib : Library) (c : Config) :
  attrs (fst (BaseSoC_lib lib c)) !! "dna"
    = if ran lib c at_DNA_timing
      then Some (ADNA {| dna_timing :=
                           Some (sys_clk_freq c, cd_clk {| cd_name := "sys" |}) |})
      else if ran lib c at_DNA then Some (ADNA {| dna_timing := None |}) else None.
Proof. lib_config_cases lib c; run. Qed.

Lemma BaseSoC_lib_ddrphy (lib : Library) (c : Config) :
  attrs (fst (BaseSoC_lib lib c)) !! "ddrphy"
    = if ran lib c at_A7DDRPHY then Some (ADDRPHY (ddr3_phy (sys_clk_freq c))) else None.
Proof. lib_config_cases lib c; run. Qed.

Lemma BaseSoC_lib_ethphy (lib : Library) (c : Config) :
  ethphy_of (fst (BaseSoC_lib lib c))
    = if ran lib c at_A7_1000BASEX then Some (sfp0_phy (sys_clk_freq c)) else None.
Proof. lib_config_cases lib c; run. Qed.

Lemma BaseSoC_lib_calls (lib : Library) (c : Config) :
  soc_calls (fst (BaseSoC_lib lib c)) =
    ((if ran lib c at_add_sdram
      then [add_sdram "sdram" (ddr3_phy (sys_clk_freq c))
              ("MT41K256M16", sys_clk_freq c, "1:4")
              (dict_get (kwargs c) "l2_size" 8192)]
      else [])
     ++ (if ran lib c at_add_ethernet
         then [add_ethernet (sfp0_phy (sys_clk_freq c)) (eth_dynamic_ip c)] else [])
     ++ (if ran lib c at_add_etherbone
         then [add_etherbone (sfp0_phy (sys_clk_freq c)) (eth_ip c) 4] else []))%list.
Proof. lib_config_cases lib c; run. Qed.

(** What a construction that returns has built. *)
Lemma BaseSoC_lib_returned (lib : Library) (c : Config) :
  snd (BaseSoC_lib lib c) = inr tt ->
  attrs (fst (BaseSoC_lib lib c)) !! "xadc" = (if with_xadc c then Some AXADC else None) /\
  attrs (fst (BaseSoC_lib lib c)) !! "dna"
    = (if with_dna c
       then Some (ADNA {| dna_timing :=
                            Some (sys_clk_freq c, cd_clk {| cd_name := "sys" |}) |})
       else None) /\
  attrs (fst (BaseSoC_lib lib c)) !! "ddrphy"
    = (if with_dram c then Some (ADDRPHY (ddr3_phy (sys_clk_freq c))) else None) /\
  ethphy_of (fst (BaseSoC_lib lib c)) = Some (sfp0_phy (sys_clk_freq c)) /\
  soc_calls (fst (BaseSoC_lib lib c)) = integration_calls c.
Proof.
  lib_config_cases lib c; vm_compute; intros H;
    first [discriminate H | repeat split].
Qed.

(** The integration calls made so far are always an initial part of the
    full list, and [add_spi_flash] is never among them. *)
Lemma BaseSoC_lib_calls_prefix (lib : Library) (c : Config) :
  integration_calls c
    = (soc_calls (fst (BaseSoC_lib lib c))
       ++ drop (length (soc_calls (fst (BaseSoC_lib lib c)))) (integration_calls c))%list.
Proof. lib_config_cases lib c; run. Qed.

Lemma BaseSoC_lib_no_spi_flash (lib : Library) (c : Config) :
  List.filter is_add_spi_flash (soc_calls (fst (BaseSoC_lib lib c))) = [].
Proof. lib_config_cases lib c; run. Qed.

Lemma BaseSoC_domain_names (c : Config) :
  (domain_names <$> crg_of (fst (BaseSoC c)))
    = Some (if with_dram c then ["sys"; "sys4x"; "sys4x_dqs"; "idelay"] else ["sys"]).
Proof. config_cases c; run. Qed.

(** ** Which sites a run gets past *)

Lemma ran_in_In (lib : Library) (l : list site) (s : site) :
  ran_in lib l s = true -> In s l.
Proof.
  induction l as [| x l IH]; cbn [ran_in]; [discriminate |].
  destruct (raises lib x); [discriminate |].
  destruct (bool_decide_reflect (x = s)) as [-> | _]; [left; reflexivity |].
  intros H. right. exact (IH H).
Qed.

(** A run in which no call raises gets past every site on its path. *)
Lemma ran_in_complete (lib : Library) (l : list site) (s : site) :
  first_raise lib l = None -> In s l -> ran_in lib l s = true.
Proof.
  induction l as [| x l IH]; cbn [first_raise ran_in]; [intros _ [] |].
  destruct (raises lib x); [discriminate |].
  intros Hnone [-> | Hin].
  - now rewrite bool_decide_eq_true_2.
  - destruct (bool_decide (x = s)); [reflexivity | exact (IH Hnone Hin)].
Qed.

Lemma first_raise_app (lib : Library) (l l' : list site) :
  first_raise lib (l ++ l') =
    match first_raise lib l with
    | Some e => Some e
    | None => first_raise lib l'
    end.
Proof.
  induction l as [| x l IH]; cbn [first_raise app]; [reflexivity |].
  destruct (raises lib x); [reflexivity | exact IH].
Qed.

Ltac site_flags c :=
  unfold ran, sites_of, effective_with_qpll;
  destruct (with_xadc c), (with_dna c), (with_dram c), (with_qpll c),
    (with_ethernet c), (with_etherbone c);
  cbn [orb app In]; intuition discriminate.

Lemma In_sites_XADC (c : Config) : In at_XADC (sites_of c) -> with_xadc c = true.
Proof. site_flags c. Qed.

Lemma In_sites_DNA (c : Config) : In at_DNA (sites_of c) -> with_dna c = true.
Proof. site_flags c. Qed.

Lemma In_sites_DNA_timing (c : Config) : In at_DNA_timing (sites_of c) -> with_dna c = true.
Proof. site_flags c. Qed.

Lemma In_sites_A7DDRPHY (c : Config) : In at_A7DDRPHY (sites_of c) -> with_dram c = true.
Proof. site_flags c. Qed.


Lemma In_sites_add_ethernet (c : Config) :
  In at_add_ethernet (sites_of c) -> with_ethernet c = true.
Proof. site_flags c. Qed.

Lemma In_sites_add_etherbone (c : Config) :
  In at_add_etherbone (sites_of c) -> with_etherbone c = true.
Proof. site_flags c. Qed.

Lemma outcome_returns (lib : Library) (c : Config) :
  outcome lib c = inr tt <->
  first_raise lib (sites_of c) = None /\
  effective_with_qpll c = true /\ with_spi_flash c = false.
Proof.
  unfold outcome.
  destruct (first_raise lib (sites_of c)), (effective_with_qpll c), (with_spi_flash c);
    split; try discriminate; try (intros (? & ? & ?); discriminate); intuition.
Qed.

(** ** [main], whatever the libraries do *)

Lemma main_lib_run (lib : Library) (argv : Args.t) :
  main_lib lib argv =
    if Args.with_ethernet argv && Args.with_etherbone argv
    then (new_session, inl (SystemExit 2))
    else if Args.with_etherbone argv && Args.eth_dynamic_ip argv
    then (new_session, inl AssertionError)
    else
      match snd (BaseSoC_lib lib (config_of_args argv)) with
      | inl e =>
          ({| soc := Some (fst (BaseSoC_lib lib (config_of_args argv))); tools := [] |},
           inl e)
      | inr _ =>
          ({| soc := Some (fst (BaseSoC_lib lib (config_of_args argv)));
              tools := tools_run lib argv |},
           match first_raise lib (tool_sites argv) with
           | Some e => inl e
           | None =>
               if Args.flash argv
               then inl (NotImplementedError "Flash not supported on Sinara Kasli.")
               else inr tt
           end)
      end.
Proof.
  unfold main_lib, main_body_lib, parse_args.
  destruct (Args.with_ethernet argv && Args.with_etherbone argv); [reflexivity |].
  rewrite bind_ret.
  destruct (Args.with_etherbone argv && Args.eth_dynamic_ip argv); [reflexivity |].
  cbn [negb assert]. rewrite bind_ret.
  unfold bind at 1. unfold construct_lib at 1.
  destruct (BaseSoC_lib lib (config_of_args argv)) as [w [e | []]]; cbn [fst snd];
    [reflexivity |].
  unfold tools_run, tool_sites.
  destruct (Args.build argv), (Args.load argv), (Args.flash argv);
    destruct lib as [o1 o2 o3 o4 o5 o6 o7 o8 o9 o10 o11 o12 o13 o14 o15 o16 o17 o18];
    destruct o13, o14, o15, o16, o17; reflexivity.
Qed.

Ltac tool_cases lib argv :=
  unfold tools_run, tool_sites, build_actions;
  destruct (Args.build argv), (Args.load argv);
  destruct lib as [o1 o2 o3 o4 o5 o6 o7 o8 o9 o10 o11 o12 o13 o14 o15 o16 o17 o18];
  destruct o13, o14, o15, o16, o17.

Lemma tools_run_prefix (lib : Library) (argv : Args.t) :
  build_actions argv =
    (tools_run lib argv ++ drop (length (tools_run lib argv)) (build_actions argv))%list.
Proof. tool_cases lib argv; reflexivity. Qed.

Lemma tools_run_complete (lib : Library) (argv : Args.t) :
  first_raise lib (tool_sites argv) = None -> tools_run lib argv = build_actions argv.
Proof. tool_cases lib argv; cbn; intros H; first [discriminate H | reflexivity]. Qed.

Lemma tools_run_no_flash (lib : Library) (argv : Args.t) :
  List.filter is_prog_flash (tools_run lib argv) = [].
Proof. tool_cases lib argv; reflexivity. Qed.

Lemma tools_run_no_programmer (lib : Library) (argv : Args.t) :
  Args.load argv = false ->
  List.filter is_programmer_call (tools_run lib argv) = [].
Proof. tool_cases lib argv; cbn; intros H; first [discriminate H | reflexivity]. Qed.

(** With returning libraries the two models are the same. *)
Lemma BaseSoC_lib_all_return (c : Config) : BaseSoC_lib all_return c = BaseSoC c.
Proof. reflexivity. Qed.

Lemma main_lib_all_return (argv : Args.t) : main_lib all_return argv = main argv.
Proof. reflexivity. Qed.


(** ** The Ethernet PHY without a QPLL *)


(** ** The flash action *)

(** C9, as the claim states it, fails twice: [--flash] together with
    [--with-etherbone --eth-dynamic-ip] ends in the [AssertionError], not in
    [NotImplementedError]; and with [--flash --load] a programmer is created
    and has loaded the bitstream before [NotImplementedError] is raised. *)
Lemma C9_counterexample :
  (Args.flash argv_flash_etherbone_dynamic = true /\
   snd (main argv_flash_etherbone_dynamic) = inl AssertionError) /\
  (Args.flash argv_flash_load = true /\
   snd (main argv_flash_load) = inl (NotImplementedError "Flash not supported on Sinara Kasli.") /\
   tools (fst (main argv_flash_load))
     = [Builder_new; create_programmer; load_bitstream "sram"]).
Proof. repeat split; run. Qed.

(** C9 (amended): every invocation with [--flash] ends in an exception and
    never reaches the [create_programmer] and [prog.flash] calls after the
    [raise], whatever the libraries do; no programmer is created or invoked
    unless [--load] is given too; and when the command line passes the
    parser and the [assert], the construction returns and the builder and
    load actions return, the exception is the [NotImplementedError] of the
    flash action, raised after those actions. *)
Theorem C9_flash_raises_before_flashing (lib : Library) (argv : Args.t) :
  Args.flash argv = true ->
  (exists e, snd (main_lib lib argv) = inl e) /\
  List.filter is_prog_flash (tools (fst (main_lib lib argv))) = [] /\
  (Args.load argv = false ->
   List.filter is_programmer_call (tools (fst (main_lib lib argv))) = []) /\
  (rejected argv = false ->
   snd (BaseSoC_lib lib (config_of_args argv)) = inr tt ->
   first_raise lib (tool_sites argv) = None ->
   snd (main_lib lib argv) = inl (NotImplementedError "Flash not supported on Sinara Kasli.") /\
   tools (fst (main_lib lib argv)) = build_actions argv).
Proof.
  intros Hflash. rewrite main_lib_run, Hflash. unfold rejected.
  destruct (Args.with_ethernet argv && Args.with_etherbone argv);
    [repeat split; eauto; discriminate |].
  destruct (Args.with_etherbone argv && Args.eth_dynamic_ip argv);
    [repeat split; eauto; discriminate |].
  destruct (snd (BaseSoC_lib lib (config_of_args argv))) as [e | []];
    [repeat split; eauto; discriminate |].
  cbn [fst snd tools orb].
  split; [destruct (first_raise lib (tool_sites argv)); eauto |].
  split; [apply tools_run_no_flash |].
  split; [apply tools_run_no_programmer |].
  intros _ _ Hnone. rewrite Hnone. split; [reflexivity |].
  now apply tools_run_complete.
Qed.

Lemma C9_witness :
  List.filter is_programmer_call (tools (fst (main_lib all_return argv_flash))) = [] /\
  snd (main_lib all_return argv_flash)
    = inl (NotImplementedError "Flash not supported on Sinara Kasli.") /\
  tools (fst (main_lib all_return argv_flash)) = [Builder_new].
Proof.
  destruct (C9_flash_raises_before_flashing all_return argv_flash eq_refl)
    as (_ & _ & Hprog & Hraise).
  split; [exact (Hprog eq_refl) |].
  apply Hraise; reflexivity.
Defined.

(** ** [BaseSoC]: what a construction builds, whatever the libraries do *)

(** X3: whatever the libraries do, the [_CRG] of a construction has the
    [sys4x], [sys4x_dqs] and [idelay] domains exactly when [with_dram]
    holds, and a DDR3 PHY in [self.ddrphy] is the DDR3, 4-phase PHY on the
    [ddram] pads and exists only with those domains; a construction that
    returns has the PHY exactly when [with_dram] holds.  ([SoCCore] is taken
    to keep [integrated_main_ram_size] as it was passed, 0 when absent.) *)
Theorem X3_ddrphy_needs_dram_domains (lib : Library) (c : Config) :
  (domain_names <$> crg_of (fst (BaseSoC_lib lib c)))
    = Some (if with_dram c then ["sys"; "sys4x"; "sys4x_dqs"; "idelay"] else ["sys"]) /\
  (forall v, attrs (fst (BaseSoC_lib lib c)) !! "ddrphy" = Some v ->
     with_dram c = true /\ v = ADDRPHY (ddr3_phy (sys_clk_freq c))) /\
  (snd (BaseSoC_lib lib c) = inr tt ->
   attrs (fst (BaseSoC_lib lib c)) !! "ddrphy"
     = (if with_dram c then Some (ADDRPHY (ddr3_phy (sys_clk_freq c))) else None)).
Proof.
  split; [rewrite BaseSoC_lib_crg; apply BaseSoC_domain_names |]. split.
  - intros v. rewrite BaseSoC_lib_ddrphy.
    destruct (ran lib c at_A7DDRPHY) eqn:Hran; [| discriminate].
    intros [= <-]. split; [| reflexivity].
    now apply ran_in_In, In_sites_A7DDRPHY in Hran.
  - intros Hret. apply (BaseSoC_lib_returned lib c Hret).
Qed.

Lemma X3_witness :
  (with_dram (default_config "v2.0") = true /\
   ADDRPHY (ddr3_phy 125e6%float)
     = ADDRPHY (ddr3_phy (sys_clk_freq (default_config "v2.0")))) /\
  attrs (fst (BaseSoC_lib all_return (default_config "v2.0"))) !! "ddrphy"
    = Some (ADDRPHY (ddr3_phy 125e6%float)).
Proof.
  split.
  - apply (proj1 (proj2 (X3_ddrphy_needs_dram_domains all_return (default_config "v2.0")))).
    vm_compute. reflexivity.
  - apply (proj2 (proj2 (X3_ddrphy_needs_dram_domains all_return (default_config "v2.0")))).
    vm_compute. reflexivity.
Defined.

(** X5: whatever the libraries do, [self.xadc] is set only when
    [with_xadc] is given and [self.dna] only when [with_dna] is given; a
    construction that returns has [self.xadc] exactly when [with_xadc] is
    given and [self.dna] exactly when [with_dna] is given, with timing
    constraints for the system clock frequency on the clock of the [sys]
    domain. *)
Theorem X5_xadc_and_dna (lib : Library) (c : Config) :
  (forall v, attrs (fst (BaseSoC_lib lib c)) !! "xadc" = Some v ->
     with_xadc c = true /\ v = AXADC) /\
  (forall v, attrs (fst (BaseSoC_lib lib c)) !! "dna" = Some v -> with_dna c = true) /\
  (snd (BaseSoC_lib lib c) = inr tt ->
   attrs (fst (BaseSoC_lib lib c)) !! "xadc" = (if with_xadc c then Some AXADC else None) /\
   attrs (fst (BaseSoC_lib lib c)) !! "dna"
     = (if with_dna c
        then Some (ADNA {| dna_timing :=
                             Some (sys_clk_freq c, cd_clk {| cd_name := "sys" |}) |})
        else None)).
Proof.
  split; [| split].
  - intros v. rewrite BaseSoC_lib_xadc.
    destruct (ran lib c at_XADC) eqn:Hran; [| discriminate].
    intros [= <-]. split; [| reflexivity].
    now apply ran_in_In, In_sites_XADC in Hran.
  - intros v. rewrite BaseSoC_lib_dna.
    destruct (ran lib c at_DNA_timing) eqn:Ht.
    + intros _. now apply ran_in_In, In_sites_DNA_timing in Ht.
    + destruct (ran lib c at_DNA) eqn:Hd; [| discriminate].
      intros _. now apply ran_in_In, In_sites_DNA in Hd.
  - intros Hret. destruct (BaseSoC_lib_returned lib c Hret) as (Hx & Hd & _).
    split; assumption.
Qed.

Lemma X5_witness :
  (with_xadc xadc_dna_config = true /\ AXADC = AXADC) /\
  with_dna xadc_dna_config = true /\
  attrs (fst (BaseSoC_lib all_return (default_config "v2.0"))) !! "xadc" = None /\
  attrs (fst (BaseSoC_lib all_return (default_config "v2.0"))) !! "dna" = None.
Proof.
  split; [| split].
  - apply (proj1 (X5_xadc_and_dna (ddrphy_raises (TypeError "")) xadc_dna_config)).
    vm_compute. reflexivity.
  - apply (proj1 (proj2 (X5_xadc_and_dna (ddrphy_raises (TypeError "")) xadc_dna_config))
             (ADNA {| dna_timing := Some (125e6%float, cd_clk {| cd_name := "sys" |}) |})).
    vm_compute. reflexivity.
  - apply (proj2 (proj2 (X5_xadc_and_dna all_return (default_config "v2.0")))).
    vm_compute. reflexivity.
Defined.

(** X6: whatever the libraries do, the integration methods a construction
    has invoked are an initial part of this list: [add_sdram] when there is
    DRAM (MT41K256M16 at 1:4, L2 cache size [l2_size], 8192 when the key is
    missing), [add_ethernet] when [with_ethernet] is given, [add_etherbone]
    with 4 ARP entries when [with_etherbone] is given, both on the same PHY;
    [add_spi_flash] is never invoked; a construction that returns has
    invoked the whole list. *)
Theorem X6_integration_calls (lib : Library) (c : Config) :
  (exists rest,
     ((if with_dram c
       then [add_sdram "sdram" (ddr3_phy (sys_clk_freq c))
               ("MT41K256M16", sys_clk_freq c, "1:4")
               (default 8192 (kwargs c !! "l2_size"))]
       else [])
      ++ (if with_ethernet c
          then [add_ethernet (sfp0_phy (sys_clk_freq c)) (eth_dynamic_ip c)] else [])
      ++ (if with_etherbone c
          then [add_etherbone (sfp0_phy (sys_clk_freq c)) (eth_ip c) 4] else []))%list
     = (soc_calls (fst (BaseSoC_lib lib c)) ++ rest)%list) /\
  List.filter is_add_spi_flash (soc_calls (fst (BaseSoC_lib lib c))) = [] /\
  (snd (BaseSoC_lib lib c) = inr tt ->
   soc_calls (fst (BaseSoC_lib lib c)) = integration_calls c).
Proof.
  split; [| split].
  - eexists. exact (BaseSoC_lib_calls_prefix lib c).
  - apply BaseSoC_lib_no_spi_flash.
  - intros Hret. apply (BaseSoC_lib_returned lib c Hret).
Qed.

Lemma X6_witness :
  soc_calls (fst (BaseSoC_lib all_return ethernet_config)) = integration_calls ethernet_config.
Proof.
  apply (proj2 (proj2 (X6_integration_calls all_return ethernet_config))).
  vm_compute. reflexivity.
Defined.

(** X7: a construction raises the first exception that a library call on
    its path raises; when none of them raises it raises [AttributeError] if
    the effective [with_qpll] is false, else [NotImplementedError] if SPI
    flash is requested, else it returns.  So it returns exactly when no
    library call on its path raises, the effective [with_qpll] is true and
    SPI flash is not requested. *)
Theorem X7_construction_outcome (lib : Library) (c : Config) :
  (forall e, first_raise lib (sites_of c) = Some e ->
     snd (BaseSoC_lib lib c) = inl e) /\
  (first_raise lib (sites_of c) = None ->
   snd (BaseSoC_lib lib c) =
     if effective_with_qpll c
     then if with_spi_flash c
          then inl (NotImplementedError "SPI Flash not supported on Sinara Kasli.")
          else inr tt
     else inl (AttributeError "_CRG" "qpll")) /\
  (snd (BaseSoC_lib lib c) = inr tt <->
   first_raise lib (sites_of c) = None /\
   effective_with_qpll c = true /\ with_spi_flash c = false).
Proof.
  rewrite BaseSoC_lib_outcome. split; [| split].
  - intros e He. unfold outcome. now rewrite He.
  - intros Hnone. unfold outcome. now rewrite Hnone.
  - apply outcome_returns.
Qed.

Lemma X7_witness :
  snd (BaseSoC_lib (ddrphy_raises (TypeError "")) (default_config "v2.0"))
    = inl (TypeError "") /\
  snd (BaseSoC_lib all_return (default_config "v2.0")) = inr tt.
Proof.
  split.
  - apply (proj1 (X7_construction_outcome (ddrphy_raises (TypeError ""))
                    (default_config "v2.0"))).
    reflexivity.
  - apply (proj2 (proj2 (X7_construction_outcome all_return (default_config "v2.0")))).
    repeat split.
Defined.

(** ** [main]: every command line, whatever the libraries do *)

Lemma main_lib_soc (lib : Library) (argv : Args.t) :
  soc (fst (main_lib lib argv)) =
    if rejected argv then None
    else Some (fst (BaseSoC_lib lib (config_of_args argv))).
Proof.
  rewrite main_lib_run. unfold rejected.
  destruct (Args.with_ethernet argv && Args.with_etherbone argv); [reflexivity |].
  destruct (Args.with_etherbone argv && Args.eth_dynamic_ip argv); [reflexivity |].
  destruct (snd (BaseSoC_lib lib (config_of_args argv))); reflexivity.
Qed.

(** X10: [main] returns normally exactly when the command line has not both
    Ethernet and Etherbone, not Etherbone with a dynamic IP and no
    [--flash], the construction returns, and the builder and load actions
    return. *)
Theorem X10_main_returns_iff (lib : Library) (argv : Args.t) :
  snd (main_lib lib argv) = inr tt <->
  rejected argv = false /\
  Args.flash argv = false /\
  snd (BaseSoC_lib lib (config_of_args argv)) = inr tt /\
  first_raise lib (tool_sites argv) = None.
Proof.
  rewrite main_lib_run. unfold rejected.
  destruct (Args.with_ethernet argv && Args.with_etherbone argv);
    [split; [discriminate | intros (H & _); discriminate] |].
  destruct (Args.with_etherbone argv && Args.eth_dynamic_ip argv);
    [split; [discriminate | intros (H & _); discriminate] |].
  destruct (snd (BaseSoC_lib lib (config_of_args argv))) as [e | []];
    [split; [discriminate | intros (_ & _ & H & _); discriminate] |].
  cbn [orb snd].
  destruct (first_raise lib (tool_sites argv));
    [split; [discriminate | intros (_ & _ & _ & H); discriminate] |].
  destruct (Args.flash argv);
    [split; [discriminate | intros (_ & H & _); discriminate] |].
  split; [intros _; repeat split | reflexivity].
Qed.

Lemma X10_witness : snd (main_lib all_return Args.defaults) = inr tt.
Proof.
  apply (proj2 (X10_main_returns_iff all_return Args.defaults)).
  repeat split.
Defined.

(** X11: [main] never passes [with_qpll], so whenever it enters [BaseSoC]
    the [_CRG] has the QPLL, whatever the libraries do; an Ethernet PHY that
    is built is the one on QPLL channel 0 and the first SFP pins, a
    construction that returns has built it, and when no library call
    raises no run ends in an [AttributeError]. *)
Theorem X11_main_always_builds_the_qpll (lib : Library) (argv : Args.t) (w : World) :
  soc (fst (main_lib lib argv)) = Some w ->
  qpll_of w = Some sgmii_qpll /\
  (forall phy, ethphy_of w = Some phy -> phy = sfp0_phy (Args.sys_clk_freq argv)) /\
  (snd (BaseSoC_lib lib (config_of_args argv)) = inr tt ->
   ethphy_of w = Some (sfp0_phy (Args.sys_clk_freq argv))) /\
  (first_raise lib (sites_of (config_of_args argv) ++ tool_sites argv) = None ->
   forall cls name, snd (main_lib lib argv) <> inl (AttributeError cls name)).
Proof.
  rewrite main_lib_soc. destruct (rejected argv) eqn:Hrej; [discriminate |].
  intros [= <-]. split; [| split; [| split]].
  - unfold qpll_of. rewrite BaseSoC_lib_crg.
    pose proof (BaseSoC_qpll (config_of_args argv)) as Hq. unfold qpll_of in Hq.
    now rewrite Hq, main_requests_qpll.
  - intros phy. rewrite BaseSoC_lib_ethphy.
    destruct (ran lib (config_of_args argv) at_A7_1000BASEX); [| discriminate].
    now intros [= <-].
  - intros Hret. apply (BaseSoC_lib_returned lib _ Hret).
  - rewrite first_raise_app.
    destruct (first_raise lib (sites_of (config_of_args argv))) eqn:Hc; [discriminate |].
    intros Ht cls name. rewrite main_lib_run, BaseSoC_lib_outcome.
    unfold rejected in Hrej. apply orb_false_elim in Hrej as [-> ->].
    unfold outcome. rewrite Hc, main_requests_qpll, Ht.
    destruct (with_spi_flash (config_of_args argv)), (Args.flash argv); discriminate.
Qed.

Lemma X11_witness :
  qpll_of (fst (BaseSoC_lib (ddrphy_raises (TypeError "")) (config_of_args Args.defaults)))
    = Some sgmii_qpll /\
  ethphy_of (fst (BaseSoC_lib all_return (config_of_args Args.defaults)))
    = Some (sfp0_phy 125e6%float) /\
  snd (main_lib all_return Args.defaults) <> inl (AttributeError "_CRG" "qpll").
Proof.
  split.
  - apply (X11_main_always_builds_the_qpll (ddrphy_raises (TypeError "")) Args.defaults).
    vm_compute. reflexivity.
  - destruct (X11_main_always_builds_the_qpll all_return Args.defaults
                (fst (BaseSoC_lib all_return (config_of_args Args.defaults))))
      as (_ & _ & Hphy & Hattr).
    + vm_compute. reflexivity.
    + split; [apply Hphy; vm_compute; reflexivity | apply Hattr; reflexivity].
Defined.

(** X12: whatever the libraries do, the builder and programmer actions of a
    run are an initial part of: create the builder, [build] if [--build],
    then if [--load] create a programmer and load the [sram] bitstream;
    there are none unless the command line was accepted and the
    construction returned, and a run that returns has made all of them. *)
Theorem X12_builder_and_programmer_actions (lib : Library) (argv : Args.t) :
  (exists rest,
     (Builder_new
        :: (if Args.build argv then [builder_build] else [])
        ++ (if Args.load argv then [create_programmer; load_bitstream "sram"] else []))
     = (tools (fst (main_lib lib argv)) ++ rest)%list) /\
  (tools (fst (main_lib lib argv)) <> [] ->
   rejected argv = false /\ snd (BaseSoC_lib lib (config_of_args argv)) = inr tt) /\
  (snd (main_lib lib argv) = inr tt ->
   tools (fst (main_lib lib argv)) = build_actions argv).
Proof.
  split; [| split].
  - rewrite main_lib_run.
    destruct (Args.with_ethernet argv && Args.with_etherbone argv); [now eexists |].
    destruct (Args.with_etherbone argv && Args.eth_dynamic_ip argv); [now eexists |].
    destruct (snd (BaseSoC_lib lib (config_of_args argv))); [now eexists |].
    eexists. exact (tools_run_prefix lib argv).
  - rewrite main_lib_run. unfold rejected.
    destruct (Args.with_ethernet argv && Args.with_etherbone argv); [now intros [] |].
    destruct (Args.with_etherbone argv && Args.eth_dynamic_ip argv); [now intros [] |].
    destruct (snd (BaseSoC_lib lib (config_of_args argv))) as [e | []]; [now intros [] |].
    intros _. split; reflexivity.
  - rewrite main_lib_run.
    destruct (Args.with_ethernet argv && Args.with_etherbone argv); [discriminate |].
    destruct (Args.with_etherbone argv && Args.eth_dynamic_ip argv); [discriminate |].
    destruct (snd (BaseSoC_lib lib (config_of_args argv))) as [e | []]; [discriminate |].
    cbn [fst snd tools].
    destruct (first_raise lib (tool_sites argv)) eqn:Hnone; [discriminate |].
    intros _. now apply tools_run_complete.
Qed.

Lemma X12_witness :
  (rejected Args.defaults = false /\
   snd (BaseSoC_lib all_return (config_of_args Args.defaults)) = inr tt) /\
  tools (fst (main_lib all_return Args.defaults)) = build_actions Args.defaults.
Proof.
  split.
  - apply (proj1 (proj2 (X12_builder_and_programmer_actions all_return Args.defaults))).
    vm_compute. discriminate.
  - apply (proj2 (proj2 (X12_builder_and_programmer_actions all_return Args.defaults))).
    reflexivity.
Defined.

(** X13: whenever [main] enters [BaseSoC], whatever the libraries do, an
    Ethernet stack is attached only when [--with-ethernet] is given and an
    Etherbone stack only when [--with-etherbone] is given; the command line
    never has both, and never Etherbone with a dynamic IP; a construction
    that returns has attached the stack asked for, Ethernet with the
    [--eth-dynamic-ip] choice and Etherbone on [--eth-ip] with 4 ARP
    entries. *)
Theorem X13_main_attaches_one_stack (lib : Library) (argv : Args.t) (w : World) :
  soc (fst (main_lib lib argv)) = Some w ->
  Args.with_ethernet argv && Args.with_etherbone argv = false /\
  Args.with_etherbone argv && Args.eth_dynamic_ip argv = false /\
  (ethernet_calls (soc_calls w) <> [] -> Args.with_ethernet argv = true) /\
  (etherbone_calls (soc_calls w) <> [] -> Args.with_etherbone argv = true) /\
  (snd (BaseSoC_lib lib (config_of_args argv)) = inr tt ->
   ethernet_calls (soc_calls w) =
     (if Args.with_ethernet argv
      then [(sfp0_phy (Args.sys_clk_freq argv), Args.eth_dynamic_ip argv)] else []) /\
   etherbone_calls (soc_calls w) =
     (if Args.with_etherbone argv
      then [(sfp0_phy (Args.sys_clk_freq argv), Args.eth_ip argv, 4)] else [])).
Proof.
  rewrite main_lib_soc. unfold rejected.
  destruct (Args.with_ethernet argv && Args.with_etherbone argv) eqn:Hboth; [discriminate |].
  destruct (Args.with_etherbone argv && Args.eth_dynamic_ip argv) eqn:Hdyn; [discriminate |].
  intros [= <-]. split; [reflexivity |]. split; [reflexivity |].
  rewrite BaseSoC_lib_calls.
  split; [| split].
  - destruct (ran lib (config_of_args argv) at_add_ethernet) eqn:Hran.
    + intros _. now apply ran_in_In, In_sites_add_ethernet in Hran.
    + destruct (ran lib (config_of_args argv) at_add_sdram),
        (ran lib (config_of_args argv) at_add_etherbone); intros H; now contradiction H.
  - destruct (ran lib (config_of_args argv) at_add_etherbone) eqn:Hran.
    + intros _. now apply ran_in_In, In_sites_add_etherbone in Hran.
    + destruct (ran lib (config_of_args argv) at_add_sdram),
        (ran lib (config_of_args argv) at_add_ethernet); intros H; now contradiction H.
  - intros Hret. rewrite <- BaseSoC_lib_calls.
    destruct (BaseSoC_lib_returned lib _ Hret) as (_ & _ & _ & _ & ->).
    unfold integration_calls. cbn [config_of_args with_ethernet with_etherbone
      sys_clk_freq eth_dynamic_ip eth_ip].
    destruct (with_dram (config_of_args argv)), (Args.with_ethernet argv),
      (Args.with_etherbone argv); split; reflexivity.
Qed.

Lemma X13_witness :
  ethernet_calls (soc_calls (fst (BaseSoC_lib all_return (config_of_args argv_ethernet_dynamic))))
    = [(sfp0_phy 125e6%float, true)] /\
  etherbone_calls (soc_calls (fst (BaseSoC_lib all_return (config_of_args argv_ethernet_dynamic))))
    = [].
Proof.
  apply (X13_main_attaches_one_stack all_return argv_ethernet_dynamic
           (fst (BaseSoC_lib all_return (config_of_args argv_ethernet_dynamic)))).
  - vm_compute. reflexivity.
  - vm_compute. reflexivity.
Defined.

(** X14: a command line with [--with-spi-flash] always ends in an exception
    with no builder created, whatever the libraries do: [--build], [--load]
    and [--flash] have no effect; when the command line is accepted and no
    library call of the construction raises, the exception is the SPI flash
    [NotImplementedError]. *)
Theorem X14_main_spi_flash_stops_before_the_builder (lib : Library) (argv : Args.t) :
  Args.with_spi_flash argv = true ->
  tools (fst (main_lib lib argv)) = [] /\
  (exists e, snd (main_lib lib argv) = inl e) /\
  (rejected argv = false ->
   first_raise lib (sites_of (config_of_args argv)) = None ->
   snd (main_lib lib argv)
     = inl (NotImplementedError "SPI Flash not supported on Sinara Kasli.")).
Proof.
  intros Hspi. rewrite main_lib_run, BaseSoC_lib_outcome. unfold rejected, outcome.
  rewrite main_requests_qpll.
  change (with_spi_flash (config_of_args argv)) with (Args.with_spi_flash argv).
  rewrite Hspi.
  destruct (Args.with_ethernet argv && Args.with_etherbone argv);
    [repeat split; eauto; discriminate |].
  destruct (Args.with_etherbone argv && Args.eth_dynamic_ip argv);
    [repeat split; eauto; discriminate |].
  destruct (first_raise lib (sites_of (config_of_args argv)));
    repeat split; eauto; discriminate.
Qed.

Lemma X14_witness :
  tools (fst (main_lib all_return argv_spi_flash_build_load_flash)) = [] /\
  snd (main_lib all_return argv_spi_flash_build_load_flash)
    = inl (NotImplementedError "SPI Flash not supported on Sinara Kasli.").
Proof.
  destruct (X14_main_spi_flash_stops_before_the_builder all_return
              argv_spi_flash_build_load_flash eq_refl) as (Htools & _ & Hraise).
  split; [exact Htools | apply Hraise; reflexivity].
Defined.
